(** * Hygieia: a shallow embedding of the dashboard, the AI trainer page and
    the analytics snippets of the technical design notes.

    Sources embedded here:
    - [src/unnamed/part_000]: the [Dashboard] component (chat, quick training,
      day navigation, empty state, metric cards and charts of the layouts,
      "minimal" layout averages);
    - [src/unnamed/part_001]: the [AITrainerPage] component
      ([startTraining], [askQuestion]);
    - [src/unnamed/part_002]: the training endpoint of the design notes;
    - [src/frontend/src/app/upload/page.tsx]: [handleFileUpload];
    - [src/frontend/src/app/insights/page.tsx]: the columns of the "split"
      layout;
    - [src/README.md]: the Python excerpts of the design notes (source
      prioritization, anomaly detection).
    The backend behind these excerpts is not among the repository's files;
    what the statements need of it beyond the excerpts (the assembly of the
    unified series, the run count, the correlation engine) follows the
    specification, in definitions marked "Modelled from the spec".

    Numbers are exact rationals ([Q]), the values the JSON bodies denote.
    Where the page computes with them (the averages of the "minimal"
    layout), the binary64 arithmetic of JavaScript is modelled, in [IEEE].
    Strings are sequences of code units below 256. *)

From Stdlib Require Import ZArith QArith Qpower Qround Qabs Qminmax Lia Lqa List String Ascii.
From stdpp Require Import gmap strings list fin_maps sorting pretty.

Set Warnings "-register-all".
Local Open Scope Z_scope.

(* ===================================================================== *)
(** ** JavaScript values, as [response.json()] produces them             *)
(* ===================================================================== *)

Module JS.

(** A parsed JSON document, plus [Undefined] for a property that is absent. *)
Inductive value :=
| Undefined
| Null
| Bool (b : bool)
| Num (q : Q)
| Str (s : string)
| Arr (items : list value)
| Obj (fields : gmap string value).

(** ToBoolean: [undefined], [null], [false], [0] and [""] are falsy. *)
Definition truthy (v : value) : bool :=
  match v with
  | Undefined | Null => false
  | Bool b => b
  | Num q => negb (Qnum q =? 0)
  | Str s => negb (bool_decide (s = EmptyString))
  | Arr _ | Obj _ => true
  end.

(** [a || b] *)
Definition or (a b : value) : value := if truthy a then a else b.

(** [v === 'literal'] *)
Definition strict_eq_str (v : value) (lit : string) : bool :=
  match v with
  | Str s => bool_decide (s = lit)
  | _ => false
  end.

(** What a [try] block of the components can catch: a property read on
    [null]/[undefined], a rejected [fetch], a body that is not JSON. *)
Inductive exn := TypeError | NetworkError | SyntaxError.

(** How an expression or a statement completes. *)
Inductive completion (A : Type) :=
| Normal (a : A)
| Throw (e : exn).
Arguments Normal {A} a.
Arguments Throw {A} e.

(** The number of UTF-16 code units of a string (code units below 256). *)
Definition str_length (s : string) : Q := inject_Z (Z.of_nat (String.length s)).

(** Property read on a value that is neither [null] nor [undefined]: the
    own data properties of an object, and [length] of arrays and strings
    (the components read no other key). *)
Definition own (v : value) (k : string) : value :=
  match v with
  | Obj fields => default Undefined (fields !! k)
  | Arr items =>
      if bool_decide (k = "length"%string)
      then Num (inject_Z (Z.of_nat (length items))) else Undefined
  | Str s => if bool_decide (k = "length"%string) then Num (str_length s) else Undefined
  | _ => Undefined
  end.

(** [v.k]: a TypeError on [null] and [undefined]. *)
Definition get (v : value) (k : string) : completion value :=
  match v with
  | Undefined | Null => Throw TypeError
  | _ => Normal (own v k)
  end.

(** [v?.k] *)
Definition get_opt (v : value) (k : string) : value :=
  match v with
  | Undefined | Null => Undefined
  | _ => own v k
  end.

(** ECMAScript white space and line terminators among the code units
    below 256: TAB, LF, VT, FF, CR, SP and NBSP. *)
Definition is_white_space (c : ascii) : bool :=
  let n := nat_of_ascii c in
  ((9 <=? n) && (n <=? 13) || (n =? 32) || (n =? 160))%nat.

Fixpoint trimStart (s : string) : string :=
  match s with
  | EmptyString => EmptyString
  | String c rest => if is_white_space c then trimStart rest else s
  end.

Definition trimEnd (s : string) : string := String.rev (trimStart (String.rev s)).

(** [s.trim()] *)
Definition trim (s : string) : string := trimEnd (trimStart s).

(** Truthiness of a string: non-empty. *)
Definition str_truthy (s : string) : bool := negb (bool_decide (s = EmptyString)).

Section ToString.
(** Number::toString is a builtin; its shortest round-trip decimal depends on
    the binary representation, so it is taken as given. *)
Variable number_to_string : Q -> string.

(** String interpolation [`${v}`] (ToString). *)
Fixpoint to_string (v : value) : string :=
  match v with
  | Undefined => "undefined"
  | Null => "null"
  | Bool true => "true"
  | Bool false => "false"
  | Num q => number_to_string q
  | Str s => s
  | Arr items =>
      (fix join (l : list value) : string :=
         match l with
         | [] => EmptyString
         | [x] => match x with Undefined | Null => EmptyString | _ => to_string x end
         | x :: rest =>
             String.app (match x with Undefined | Null => EmptyString | _ => to_string x end)
               (String.app "," (join rest))
         end) items
  | Obj _ => "[object Object]"
  end.
End ToString.

End JS.

(* ===================================================================== *)
(** ** Component state and effects                                        *)
(* ===================================================================== *)

Module Eff.
Import JS.

(** An event handler over component state [S]: it ends normally or with an
    uncaught exception, and leaves a new state. [setX(prev => f prev)]
    updates are applied in program order. *)
Definition action (S A : Type) : Type := S -> completion A * S.

Definition ret {S A} (a : A) : action S A := fun s => (Normal a, s).

Definition bind {S A B} (m : action S A) (k : A -> action S B) : action S B :=
  fun s =>
    match m s with
    | (Normal a, s') => k a s'
    | (Throw e, s') => (Throw e, s')
    end.

(** The completion of an awaited expression, injected in the handler. *)
Definition lift {S A} (c : completion A) : action S A := fun s => (c, s).

(** A state setter call. *)
Definition modify {S} (f : S -> S) : action S unit := fun s => (Normal tt, f s).

(** [try { body } catch (error) { handler }] *)
Definition try_catch {S} (body : action S unit) (handler : exn -> action S unit)
  : action S unit :=
  fun s =>
    match body s with
    | (Normal _, s') => (Normal tt, s')
    | (Throw e, s') => handler e s'
    end.

(** [... finally { fin }]: [fin] runs on both completions; the completion of
    the protected block is kept unless [fin] itself throws. *)
Definition finally {S A} (m : action S A) (fin : action S unit) : action S A :=
  fun s =>
    let '(r, s1) := m s in
    match fin s1 with
    | (Normal _, s2) => (r, s2)
    | (Throw e, s2) => (Throw e, s2)
    end.

(** A state update handed to a setter, [setX(v)] or [setX(prev => ...)].
    React queues it and runs an updater function when it renders next: an
    updater that throws does so there, after the handler has left its
    [try] blocks. *)
Definition update (S : Type) : Type := S -> completion S.

(** An update that cannot throw: a value, or an updater that only copies. *)
Definition plain {S} (f : S -> S) : update S := fun s => Normal (f s).

(** A setter call of a handler, as an effect on the queue of updates. *)
Definition enqueue {S} (u : update S) : action (list (update S)) unit :=
  modify (fun queue => queue ++ [u]).

(** The render that follows a handler: the queued updates in order, from
    the state rendered last. *)
Fixpoint commit {S} (queue : list (update S)) (s : S) : completion S :=
  match queue with
  | [] => Normal s
  | u :: rest =>
      match u s with
      | Normal s' => commit rest s'
      | Throw e => Throw e
      end
  end.

(** stdpp's monad notations ([x ← m; k] and [m;; k]) for handlers. *)
#[export] Instance action_ret {S} : MRet (action S) := fun A => @ret S A.
#[export] Instance action_bind {S} : MBind (action S) := fun A B k m => bind m k.

End Eff.

(* ===================================================================== *)
(** ** JavaScript numbers: binary64                                       *)
(* ===================================================================== *)

Module IEEE.
Local Open Scope Q_scope.

(** A JavaScript number. *)
Inductive double :=
| Finite (q : Q)
| Infinity (negative : bool)
| NaN.

(** The exponent [k] of the binade of a positive rational:
    [2^k <= x < 2^(k+1)]. *)
Definition ilog2 (x : Q) : Z :=
  let k := (Z.log2 (Qnum x) - Z.log2 (Z.pos (Qden x)))%Z in
  if Qle_bool (2 ^ k) x then k else (k - 1)%Z.

(** Rounding to the nearest integer, a tie to the even one. *)
Definition round_half_even (x : Q) : Z :=
  let f := Qfloor x in
  match Qcompare (x - inject_Z f) (1 # 2) with
  | Lt => f
  | Gt => (f + 1)%Z
  | Eq => if Z.even f then f else (f + 1)%Z
  end.

(** The multiple of the spacing of the doubles around [x >= 0] nearest to
    it: 53 significant bits, and a spacing that is never below [2^-1074]
    (the subnormal numbers). *)
Definition nearest (x : Q) : Q :=
  if Qle_bool x 0 then 0
  else
    let e := (Z.max (ilog2 x) (-1022) - 52)%Z in
    inject_Z (round_half_even (x / 2 ^ e)) * 2 ^ e.

(** The double a real number rounds to (to nearest, ties to even); from
    [2^1024] on, the result is infinite. *)
Definition round64 (x : Q) : double :=
  let m := nearest (Qabs x) in
  if Qle_bool (2 ^ 1024) m then Infinity (negb (Qle_bool 0 x))
  else Finite (Qred (if Qle_bool 0 x then m else - m)).

(** [a + b] *)
Definition add (a b : double) : double :=
  match a, b with
  | Finite x, Finite y => round64 (x + y)
  | NaN, _ | _, NaN => NaN
  | Infinity s, Finite _ | Finite _, Infinity s => Infinity s
  | Infinity s, Infinity t => if Bool.eqb s t then Infinity s else NaN
  end.

(** [a / n] for a positive integer [n] below [2^53]. *)
Definition div (a : double) (n : Z) : double :=
  match a with
  | Finite x => round64 (x / inject_Z n)
  | Infinity s => Infinity s
  | NaN => NaN
  end.

(** [a <= b] *)
Definition le (a b : double) : Prop :=
  match a, b with
  | Finite x, Finite y => x <= y
  | Infinity true, (Finite _ | Infinity _) => True
  | (Finite _ | Infinity _), Infinity false => True
  | _, _ => False
  end.

End IEEE.

(* ===================================================================== *)
(** ** [Dashboard] (src/unnamed/part_000)                                 *)
(* ===================================================================== *)

Module Dashboard.
Import JS Eff.

(** One entry of a metric series: [{ date: string; value: number }]. *)
Record point := { date : string; value : Q }.

(** [HealthData], as the dashboard endpoint delivers it: [metrics] maps a
    metric name ("sleep", "steps", "heart_rate", "calories") to its series.
    The component guards every access, so a body without [metrics], or a
    [metrics] object without some series, is representable. *)
Record HealthData := {
  metrics : option (gmap string (list point));
  source : option string }.

Inductive sender := user | ai.

(** An entry of [chatMessages]. The fields filled from the backend's JSON
    hold whatever it sent; an absent [confidence] reads as [Undefined]. *)
Record chat_message := {
  type : sender;
  message : JS.value;
  confidence : JS.value }.

(** The [useState] cells of the component that the handlers and the parts
    of the render embedded below use. *)
Record state := {
  healthData : option HealthData;
  dataSource : string;
  currentDayIndex : Z;
  uiStyle : string;
  chatMessages : list chat_message;
  chatInput : string;
  isLoadingChat : bool;
  isTrainingAI : bool;
  aiTrained : bool }.

Definition initial : state :=
  {| healthData := None; dataSource := "mock"; currentDayIndex := 0;
     uiStyle := "default"; chatMessages := []; chatInput := EmptyString;
     isLoadingChat := false; isTrainingAI := false; aiTrained := false |}.

Definition setHealthData (d : HealthData) (st : state) : state :=
  {| healthData := Some d; dataSource := dataSource st;
     currentDayIndex := currentDayIndex st; uiStyle := uiStyle st;
     chatMessages := chatMessages st; chatInput := chatInput st;
     isLoadingChat := isLoadingChat st; isTrainingAI := isTrainingAI st;
     aiTrained := aiTrained st |}.

Definition setDataSource (s : string) (st : state) : state :=
  {| healthData := healthData st; dataSource := s;
     currentDayIndex := currentDayIndex st; uiStyle := uiStyle st;
     chatMessages := chatMessages st; chatInput := chatInput st;
     isLoadingChat := isLoadingChat st; isTrainingAI := isTrainingAI st;
     aiTrained := aiTrained st |}.

Definition setCurrentDayIndex (i : Z) (st : state) : state :=
  {| healthData := healthData st; dataSource := dataSource st;
     currentDayIndex := i; uiStyle := uiStyle st;
     chatMessages := chatMessages st; chatInput := chatInput st;
     isLoadingChat := isLoadingChat st; isTrainingAI := isTrainingAI st;
     aiTrained := aiTrained st |}.

Definition setUiStyle (s : string) (st : state) : state :=
  {| healthData := healthData st; dataSource := dataSource st;
     currentDayIndex := currentDayIndex st; uiStyle := s;
     chatMessages := chatMessages st; chatInput := chatInput st;
     isLoadingChat := isLoadingChat st; isTrainingAI := isTrainingAI st;
     aiTrained := aiTrained st |}.

(** [setChatMessages(prev => f prev)] *)
Definition setChatMessages (f : list chat_message -> list chat_message)
  (st : state) : state :=
  {| healthData := healthData st; dataSource := dataSource st;
     currentDayIndex := currentDayIndex st; uiStyle := uiStyle st;
     chatMessages := f (chatMessages st); chatInput := chatInput st;
     isLoadingChat := isLoadingChat st; isTrainingAI := isTrainingAI st;
     aiTrained := aiTrained st |}.

Definition setChatInput (s : string) (st : state) : state :=
  {| healthData := healthData st; dataSource := dataSource st;
     currentDayIndex := currentDayIndex st; uiStyle := uiStyle st;
     chatMessages := chatMessages st; chatInput := s;
     isLoadingChat := isLoadingChat st; isTrainingAI := isTrainingAI st;
     aiTrained := aiTrained st |}.

Definition setIsLoadingChat (b : bool) (st : state) : state :=
  {| healthData := healthData st; dataSource := dataSource st;
     currentDayIndex := currentDayIndex st; uiStyle := uiStyle st;
     chatMessages := chatMessages st; chatInput := chatInput st;
     isLoadingChat := b; isTrainingAI := isTrainingAI st;
     aiTrained := aiTrained st |}.

Definition setIsTrainingAI (b : bool) (st : state) : state :=
  {| healthData := healthData st; dataSource := dataSource st;
     currentDayIndex := currentDayIndex st; uiStyle := uiStyle st;
     chatMessages := chatMessages st; chatInput := chatInput st;
     isLoadingChat := isLoadingChat st; isTrainingAI := b;
     aiTrained := aiTrained st |}.

Definition setAiTrained (b : bool) (st : state) : state :=
  {| healthData := healthData st; dataSource := dataSource st;
     currentDayIndex := currentDayIndex st; uiStyle := uiStyle st;
     chatMessages := chatMessages st; chatInput := chatInput st;
     isLoadingChat := isLoadingChat st; isTrainingAI := isTrainingAI st;
     aiTrained := b |}.

(** [prev => [...prev, m]] *)
Definition push (m : chat_message) (prev : list chat_message) : list chat_message :=
  prev ++ [m].

(* --------------------------------------------------------------------- *)
(** *** Chat: [sendChatMessage] (lines 82-111)                            *)
(* --------------------------------------------------------------------- *)

Definition user_message (text : string) : chat_message :=
  {| type := user; message := Str text; confidence := Undefined |}.

Definition ai_text (text : string) : chat_message :=
  {| type := ai; message := Str text; confidence := Undefined |}.

Definition chat_apology : chat_message :=
  ai_text "Sorry, I had trouble processing your question. Please try again.".

(** The updater [prev => [...prev, { type: 'ai', message: data.response,
    confidence: data.confidence }]]: the two properties of [data] are read
    when React runs the updater, not when the handler passes it to
    [setChatMessages]. *)
Definition push_answer (data : JS.value) : update state :=
  fun st =>
    match get data "response" with
    | Normal response =>
        match get data "confidence" with
        | Normal conf =>
            Normal (setChatMessages
                      (push {| type := ai; message := response; confidence := conf |}) st)
        | Throw e => Throw e
        end
    | Throw e => Throw e
    end.

(** [backend] is the completion of [await fetch(...)] followed by
    [await response.json()]: the parsed body, or the rejection. The three
    updates before the [await] are rendered while the request is pending;
    those the [try], [catch] and [finally] blocks queue are run by the
    render that follows. When that render throws, nothing catches the
    exception: the handler's result is then [Throw] with the state rendered
    last, and React unmounts the component. *)
Definition sendChatMessage (text : string) (backend : completion JS.value)
  : action state unit :=
  fun st =>
    if negb (str_truthy (trim text)) || isLoadingChat st then (Normal tt, st)
    else
      let '(_, rendered) :=
        (modify (setChatMessages (push (user_message text)));;
         modify (setChatInput EmptyString);;
         modify (setIsLoadingChat true)) st in
      let '(c, queue) :=
        finally
          (try_catch
             (data ← lift backend;
              enqueue (push_answer data))
             (fun _ => enqueue (plain (setChatMessages (push chat_apology)))))
          (enqueue (plain (setIsLoadingChat false))) [] in
      match c, commit queue rendered with
      | Normal _, Normal st' => (Normal tt, st')
      | Normal _, Throw e => (Throw e, rendered)
      | Throw e, _ => (Throw e, rendered)
      end.

(** [handleQuestionClick] *)
Definition handleQuestionClick (question : string) (backend : completion JS.value)
  : action state unit :=
  sendChatMessage question backend.

(* --------------------------------------------------------------------- *)
(** *** Chat transcript rendering (lines 374-398)                         *)
(* --------------------------------------------------------------------- *)

(** What React puts in the document for the children modelled here. *)
Inductive node :=
| Text (s : string)         (** a string child *)
| Number (q : Q)            (** a number child: React prints it, 0 included *)
| P (children : list node)  (** [<p>...</p>] *)
| ConfidenceP (c : JS.value)
    (** [<p>Confidence: {(c * 100).toFixed(0)}%</p>] *).

(** A JavaScript value used as a React child: [undefined], [null] and
    booleans render nothing, strings and numbers render as text, arrays
    render their items, a plain object is refused ([None]). *)
Fixpoint react_child (v : JS.value) : option (list node) :=
  match v with
  | Undefined | Null | Bool _ => Some []
  | Num q => Some [Number q]
  | Str s => Some [Text s]
  | Arr items =>
      (fix each (l : list JS.value) : option (list node) :=
         match l with
         | [] => Some []
         | x :: rest =>
             match react_child x, each rest with
             | Some a, Some b => Some (a ++ b)
             | _, _ => None
             end
         end) items
  | Obj _ => None
  end.

(** [{msg.confidence && (<p>Confidence: ...</p>)}]: [&&] yields its left
    operand when that is falsy, and React then renders that operand. *)
Definition confidence_slot (c : JS.value) : option (list node) :=
  if truthy c then Some [ConfidenceP c] else react_child c.

Record bubble := { align : sender; children : list node }.

(** One iteration of [chatMessages.map((msg, i) => ...)]. *)
Definition render_message (msg : chat_message) : option bubble :=
  match react_child (message msg), confidence_slot (confidence msg) with
  | Some body, Some slot => Some {| align := type msg; children := P body :: slot |}
  | _, _ => None
  end.

(** The sibling rendering of a confidence: an insight of the dashboard
    (line 338) prints its confidence without a guard. *)
Record Insight := {
  title : string;
  description : string;
  correlation : Q;
  insight_confidence : Q }.

Definition render_insight (i : Insight) : list node :=
  [P [Text (title i)]; P [Text (description i)]; ConfidenceP (Num (insight_confidence i))].

(* --------------------------------------------------------------------- *)
(** *** Quick training: [quickTrainAI] (lines 117-148)                    *)
(* --------------------------------------------------------------------- *)

Section QuickTrain.
Variable number_to_string : Q -> string.

(** [result.ml_models_trained || result.models_trained?.length || 0] *)
Definition models_count (result : JS.value) : JS.value :=
  JS.or (JS.or (own result "ml_models_trained")
               (get_opt (own result "models_trained") "length"))
        (Num 0).

Definition trained_text (result : JS.value) : string :=
  String.app "AI model trained successfully! I analyzed "
    (String.app (to_string number_to_string (own result "data_points"))
       (String.app " data points and created "
          (String.app (to_string number_to_string (models_count result))
             " ML models. You can now ask me questions about your health patterns."))).

(** [backend] is the completion of the POST to [/health/ai/train] followed
    by [await response.json()]. The updaters read [result] after
    [result.status] has been read inside the [try], so they cannot throw
    and are applied in place. *)
Definition quickTrainAI (backend : completion JS.value) : action state unit :=
  modify (setIsTrainingAI true);;
  finally
    (try_catch
       (result ← lift backend;
        status ← lift (get result "status");
        if strict_eq_str status "trained"
        then
          modify (setAiTrained true);;
          modify (setChatMessages (push (ai_text (trained_text result))))
        else
          modify (setChatMessages
                    (push {| type := ai;
                             message := JS.or (own result "message")
                               (Str "Training failed. Please ensure you have health data connected.");
                             confidence := Undefined |})))
       (fun _ => modify (setChatMessages
                           (push (ai_text "Failed to train AI model. Please try again.")))))
    (modify (setIsTrainingAI false)).
End QuickTrain.

(* --------------------------------------------------------------------- *)
(** *** Data load and day navigation (lines 54-62, 164-192)               *)
(* --------------------------------------------------------------------- *)

(** [healthData?.metrics?.<name>] *)
Definition series (name : string) (hd : option HealthData) : option (list point) :=
  match hd with
  | Some d =>
      match metrics d with
      | Some m => m !! name
      | None => None
      end
  | None => None
  end.

(** The [.then] callback of the dashboard fetch; the three setters are
    applied in one batch. *)
Definition dashboardLoaded (data : HealthData) (st : state) : state :=
  setCurrentDayIndex 0
    (setDataSource
       (match source data with
        | Some s => if str_truthy s then s else "mock"
        | None => "mock"
        end)
       (setHealthData data st)).

(** [healthData?.metrics?.sleep?.length || 1] *)
Definition sleep_length_or_1 (st : state) : Z :=
  match series "sleep" (healthData st) with
  | Some sleep => if (length sleep =? 0)%nat then 1 else Z.of_nat (length sleep)
  | None => 1
  end.

(** [onClick] of the "Previous day" button. *)
Definition previousDay (st : state) : state :=
  setCurrentDayIndex (Z.min (sleep_length_or_1 st - 1) (currentDayIndex st + 1)) st.

(** [onClick] of the "Next day" button. *)
Definition nextDay (st : state) : state :=
  setCurrentDayIndex (Z.max 0 (currentDayIndex st - 1)) st.

(** [disabled] of the "Previous day" button. *)
Definition previousDay_disabled (st : state) : bool :=
  match series "sleep" (healthData st) with
  | Some sleep => Z.of_nat (length sleep) - 1 <=? currentDayIndex st
  | None => true
  end.

(** [disabled] of the "Next day" button. *)
Definition nextDay_disabled (st : state) : bool := currentDayIndex st =? 0.

(** The events that reach the navigation state. *)
Inductive event :=
| DataLoaded (data : HealthData)
| ClickPreviousDay
| ClickNextDay
| SelectStyle (style : string).

Definition handle (st : state) (e : event) : state :=
  match e with
  | DataLoaded data => dashboardLoaded data st
  | ClickPreviousDay => previousDay st
  | ClickNextDay => nextDay st
  | SelectStyle style => setUiStyle style st
  end.

Definition run (events : list event) (st : state) : state :=
  fold_left handle events st.

(* --------------------------------------------------------------------- *)
(** *** Empty state, metric cards and charts (lines 152-155, 254-293,
        453-716)                                                          *)
(* --------------------------------------------------------------------- *)

(** [healthData.metrics && Object.keys(healthData.metrics).length > 0 &&
     healthData.metrics.sleep && healthData.metrics.sleep.length > 0],
    as the condition [!hasData] reads it. *)
Definition hasData (hd : HealthData) : bool :=
  match metrics hd with
  | None => false
  | Some m =>
      (0 <? size m)%nat &&
      match m !! "sleep" with
      | Some sleep => (0 <? length sleep)%nat
      | None => false
      end
  end.

(** [series?.[i]]: an index that is no element position reads [undefined]. *)
Definition entry (s : option (list point)) (i : Z) : option point :=
  match s with
  | Some l => if i <? 0 then None else l !! Z.to_nat i
  | None => None
  end.

(** [series?.[currentDayIndex]?.value || 0] *)
Definition value_or_0 (s : option (list point)) (i : Z) : Q :=
  match entry s i with
  | Some p => value p
  | None => 0%Q
  end.

Record metric := { metric_title : string; metric_value : Q; metric_suffix : string }.

Definition metrics_of (st : state) : list metric :=
  let i := currentDayIndex st in
  let hd := healthData st in
  [ {| metric_title := "Sleep"; metric_value := value_or_0 (series "sleep" hd) i;
       metric_suffix := "h" |};
    {| metric_title := "Steps"; metric_value := value_or_0 (series "steps" hd) i;
       metric_suffix := EmptyString |};
    {| metric_title := "Heart Rate"; metric_value := value_or_0 (series "heart_rate" hd) i;
       metric_suffix := " bpm" |};
    {| metric_title := "Calories"; metric_value := value_or_0 (series "calories" hd) i;
       metric_suffix := EmptyString |} ].

Inductive size_variant := regular | compact | large.

(** [<ChartCard title data ... />] *)
Record chart := { chart_title : string; data : option (list point); variant : size_variant }.

Definition chart_height (c : chart) : Z :=
  match variant c with compact => 150 | large => 300 | regular => 200 end.

Definition two_charts (sleep_title steps_title : string) (v : size_variant) (st : state)
  : list chart :=
  [ {| chart_title := sleep_title; data := series "sleep" (healthData st); variant := v |};
    {| chart_title := steps_title; data := series "steps" (healthData st); variant := v |} ].

(** [renderMetricsCards()]: the cards of the layout, in groups, and the
    charts the "sidebar" layout embeds next to them. *)
Record cards_view := { card_groups : list (list metric); embedded_charts : list chart }.

Definition renderMetricsCards (st : state) : cards_view :=
  let ms := metrics_of st in
  if bool_decide (uiStyle st = "sidebar"%string)
  then {| card_groups := [ms];
          embedded_charts := two_charts "Sleep Patterns" "Daily Activity" regular st |}
  else if bool_decide (uiStyle st = "split"%string)
  then {| card_groups := [take 2 ms; take 2 (drop 2 ms)]; embedded_charts := [] |}
  else {| card_groups := [ms]; embedded_charts := [] |}.

(** [array.slice(-n)] *)
Definition slice_last {A} (n : nat) (l : list A) : list A := drop (length l - n) l.

(** [items.reduce((sum, item) => sum + item.value, 0)], in exact
    arithmetic. *)
Definition sum_values (items : list point) : Q :=
  fold_left (fun sum item => (sum + value item)%Q) items 0%Q.

(** [items.reduce((sum, item) => sum + item.value, 0)] as the page
    computes it: in doubles, each [item.value] being the double the JSON
    number was read as. *)
Definition double_sum (items : list point) : IEEE.double :=
  fold_left (fun sum item => IEEE.add sum (IEEE.round64 (value item))) items
    (IEEE.Finite 0).

(** [x.toFixed(1)] of a finite double [x], as the signed number of tenths
    its text denotes: the integer [n] with [n / 10] nearest to [|x|], the
    larger on a tie. From [1e21] on the text is that of [String(x)], which
    reads back as [x] itself, [10 x] tenths. *)
Definition toFixed1 (x : Q) : Z :=
  if Qle_bool 0 x then Qfloor (x * 10 + (1 # 2))%Q
  else - Qfloor ((- x) * 10 + (1 # 2))%Q.

(** [Math.round(x)] of a finite double [x] *)
Definition Math_round (x : Q) : Z := Qfloor (x + (1 # 2))%Q.

(** The text of an average in the "minimal" layout. *)
Inductive avg_text :=
| Fixed1 (tenths : Z)   (** the result of [toFixed(1)] *)
| Rounded (n : Z)       (** [Math.round(...).toLocaleString()] *)
| Zero                  (** the literal ['0'] *)
| InfinityText (negative : bool)
    (** 'Infinity' of [toFixed], the infinity sign of [toLocaleString] *)
| NaNText               (** 'NaN' *).

(** The number a text of [avg_text] denotes. *)
Definition shown (t : avg_text) : IEEE.double :=
  match t with
  | Fixed1 tenths => IEEE.Finite (tenths # 10)
  | Rounded n => IEEE.Finite (inject_Z n)
  | Zero => IEEE.Finite 0
  | InfinityText negative => IEEE.Infinity negative
  | NaNText => IEEE.NaN
  end.

(** [(x).toFixed(1)] *)
Definition toFixed1_text (x : IEEE.double) : avg_text :=
  match x with
  | IEEE.Finite q => Fixed1 (toFixed1 q)
  | IEEE.Infinity negative => InfinityText negative
  | IEEE.NaN => NaNText
  end.

(** [Math.round(x).toLocaleString()] *)
Definition round_text (x : IEEE.double) : avg_text :=
  match x with
  | IEEE.Finite q => Rounded (Math_round q)
  | IEEE.Infinity negative => InfinityText negative
  | IEEE.NaN => NaNText
  end.


(** [items.slice(-7).reduce((sum, item) => sum + item.value, 0) / 7] *)
Definition double_last7_over_7 (items : list point) : IEEE.double :=
  IEEE.div (double_sum (slice_last 7 items)) 7.

Definition avg_sleep (hd : option HealthData) : avg_text :=
  match series "sleep" hd with
  | Some sleep => toFixed1_text (double_last7_over_7 sleep)
  | None => Zero
  end.

Definition avg_steps (hd : option HealthData) : avg_text :=
  match series "steps" hd with
  | Some steps => round_text (double_last7_over_7 steps)
  | None => Zero
  end.

Inductive charts_view :=
| Charts (cards : list chart)
| RecentTrends (avgSleep avgSteps : avg_text)
| NoCharts   (** [return null]: the sidebar layout *).

(** [renderCharts()] *)
Definition renderCharts (st : state) : charts_view :=
  let style := uiStyle st in
  if bool_decide (style = "compact"%string)
  then Charts (two_charts "Sleep Patterns" "Daily Activity" compact st)
  else if bool_decide (style = "cards"%string)
  then Charts (two_charts "Sleep Patterns" "Daily Activity" large st)
  else if bool_decide (style = "minimal"%string)
  then RecentTrends (avg_sleep (healthData st)) (avg_steps (healthData st))
  else if bool_decide (style = "sidebar"%string)
  then NoCharts
  else if bool_decide (style = "split"%string)
  then Charts (two_charts "Sleep Quality" "Activity Level" regular st)
  else Charts (two_charts "Sleep Patterns" "Daily Activity" regular st).

(** The "Empty State or Data" part of the page. *)
Inductive data_section :=
| EmptyState   (** "No Health Data Connected" *)
| DataView (cards : cards_view) (charts : charts_view).

Inductive page :=
| Loading
| Rendered (section : data_section).

(** The component's render, restricted to the data section. *)
Definition render (st : state) : page :=
  match healthData st with
  | None => Loading
  | Some hd =>
      Rendered (if negb (hasData hd) then EmptyState
                else DataView (renderMetricsCards st) (renderCharts st))
  end.

(* --------------------------------------------------------------------- *)
(** *** The day label, the Quick Train button, the chat entry points
        (lines 174-181, 353-362, 404-446)                                 *)
(* --------------------------------------------------------------------- *)

(** The text between the two navigation buttons: the date of the sleep
    entry at the current index, or 'Today'. [DateLabel d] stands for
    [new Date(d).toLocaleDateString('en-US', {month: 'short', day:
    'numeric'})]. *)
Inductive day_label :=
| DateLabel (d : string)
| Today.

Definition dayLabel (st : state) : day_label :=
  match entry (series "sleep" (healthData st)) (currentDayIndex st) with
  | Some p => if str_truthy (date p) then DateLabel (date p) else Today
  | None => Today
  end.

(** [{!aiTrained && hasData && (<button onClick={quickTrainAI}
    disabled={isTrainingAI}>...)}]: [None] when the button is not rendered,
    [Some d] when it is, with [d] its [disabled] attribute. *)
Definition quickTrainButton (st : state) : option bool :=
  match healthData st with
  | Some hd => if negb (aiTrained st) && hasData hd then Some (isTrainingAI st) else None
  | None => None
  end.

(** The questions of the "Try asking" buttons. *)
Definition sample_questions : list string :=
  [ "How does my sleep affect my activity?";
    "What's my optimal sleep duration?";
    "Why was my heart rate elevated?";
    "Should I take a rest day?" ].

(** [disabled] of the "Ask AI" button. *)
Definition askButton_disabled (st : state) : bool :=
  isLoadingChat st || negb (str_truthy (trim (chatInput st))).

(** What the user and the backend make the component do. The chat input
    calls [sendChatMessage(chatInput)] on Enter and on the "Ask AI" button;
    a completed request is one interaction. [interact] and [session] follow
    the state cells whatever the renders do, so their states include every
    state of a page that is still mounted; [mounted_interact] below stops
    where a render throws. *)
Inductive interaction :=
| Navigated (e : event)
| InputChanged (text : string)
| AskPressed (backend : completion JS.value)
| QuestionClicked (question : string) (backend : completion JS.value)
| QuickTrainPressed (backend : completion JS.value).

Section Session.
Variable number_to_string : Q -> string.

Definition interact (st : state) (i : interaction) : state :=
  match i with
  | Navigated e => handle st e
  | InputChanged text => setChatInput text st
  | AskPressed backend => snd (sendChatMessage (chatInput st) backend st)
  | QuestionClicked question backend => snd (handleQuestionClick question backend st)
  | QuickTrainPressed backend => snd (quickTrainAI number_to_string backend st)
  end.

Definition session (interactions : list interaction) (st : state) : state :=
  fold_left interact interactions st.

(** The transcript renders: every message makes a bubble. A message whose
    text is an object makes [chatMessages.map(...)] throw. The chat section
    is part of every render once the data has loaded (lines 150, 346-449),
    and its handlers are reachable from that section only. *)
Definition transcript_renders (st : state) : bool :=
  forallb (fun msg => bool_decide (is_Some (render_message msg))) (chatMessages st).

(** The page after an interaction, [None] when the render that follows it
    throws: nothing catches that exception, React unmounts the component
    and no further interaction reaches it. *)
Definition mounted_interact (st : state) (i : interaction) : option state :=
  let '(c, st') :=
    match i with
    | Navigated e => (Normal tt, handle st e)
    | InputChanged text => (Normal tt, setChatInput text st)
    | AskPressed backend => sendChatMessage (chatInput st) backend st
    | QuestionClicked question backend => handleQuestionClick question backend st
    | QuickTrainPressed backend => quickTrainAI number_to_string backend st
    end in
  match c with
  | Normal _ => if transcript_renders st' then Some st' else None
  | Throw _ => None
  end.

Fixpoint mounted_session (interactions : list interaction) (st : state) : option state :=
  match interactions with
  | [] => Some st
  | i :: rest =>
      match mounted_interact st i with
      | Some st' => mounted_session rest st'
      | None => None
      end
  end.
End Session.

End Dashboard.

(* ===================================================================== *)
(** ** [AITrainerPage] (src/unnamed/part_001)                             *)
(* ===================================================================== *)

Module AITrainer.
Import JS Eff.

Record TrainingStatus := {
  status : string;
  progress : Z;
  error : JS.value }.

Record ModelInfo := {
  model_id : string;
  trained_at : string;
  training_samples : JS.value;
  model_status : string;
  capabilities : JS.value }.

Inductive sender := user | ai.

Record ChatMessage := {
  type : sender;
  message : JS.value;
  timestamp : string }.

Record state := {
  trainingStatus : option TrainingStatus;
  modelInfo : option ModelInfo;
  isTraining : bool;
  chatMessages : list ChatMessage;
  currentQuestion : string;
  isAsking : bool }.

Definition initial : state :=
  {| trainingStatus := None; modelInfo := None; isTraining := false;
     chatMessages := []; currentQuestion := EmptyString; isAsking := false |}.

Definition setTrainingStatus (t : TrainingStatus) (st : state) : state :=
  {| trainingStatus := Some t; modelInfo := modelInfo st; isTraining := isTraining st;
     chatMessages := chatMessages st; currentQuestion := currentQuestion st;
     isAsking := isAsking st |}.

Definition setModelInfo (m : ModelInfo) (st : state) : state :=
  {| trainingStatus := trainingStatus st; modelInfo := Some m; isTraining := isTraining st;
     chatMessages := chatMessages st; currentQuestion := currentQuestion st;
     isAsking := isAsking st |}.

Definition setIsTraining (b : bool) (st : state) : state :=
  {| trainingStatus := trainingStatus st; modelInfo := modelInfo st; isTraining := b;
     chatMessages := chatMessages st; currentQuestion := currentQuestion st;
     isAsking := isAsking st |}.

Definition setChatMessages (f : list ChatMessage -> list ChatMessage) (st : state) : state :=
  {| trainingStatus := trainingStatus st; modelInfo := modelInfo st;
     isTraining := isTraining st; chatMessages := f (chatMessages st);
     currentQuestion := currentQuestion st; isAsking := isAsking st |}.

Definition setCurrentQuestion (q : string) (st : state) : state :=
  {| trainingStatus := trainingStatus st; modelInfo := modelInfo st;
     isTraining := isTraining st; chatMessages := chatMessages st;
     currentQuestion := q; isAsking := isAsking st |}.

Definition setIsAsking (b : bool) (st : state) : state :=
  {| trainingStatus := trainingStatus st; modelInfo := modelInfo st;
     isTraining := isTraining st; chatMessages := chatMessages st;
     currentQuestion := currentQuestion st; isAsking := b |}.

Definition push (m : ChatMessage) (prev : list ChatMessage) : list ChatMessage :=
  prev ++ [m].

(** [startTraining] (lines 46-75). [now] is [new Date().toISOString()] at
    the time the answer is handled. *)
Definition startTraining (backend : completion JS.value) (now : string)
  : action state unit :=
  modify (setIsTraining true);;
  modify (setTrainingStatus {| status := "starting"; progress := 0; error := Undefined |});;
  finally
    (try_catch
       (result ← lift backend;
        st ← lift (get result "status");
        if strict_eq_str st "trained"
        then
          modify (setTrainingStatus
                    {| status := "completed"; progress := 100; error := Undefined |});;
          modify (setModelInfo
                    {| model_id := "demo_model";
                       trained_at := now;
                       training_samples := JS.or (own result "data_points") (Num 0);
                       model_status := "ready";
                       capabilities := JS.or (own result "models_trained") (Arr []) |})
        else
          modify (setTrainingStatus
                    {| status := "failed"; progress := 0; error := own result "message" |}))
       (fun _ => modify (setTrainingStatus
                           {| status := "failed"; progress := 0;
                              error := Str "Training failed" |})))
    (modify (setIsTraining false)).

(** [askQuestion] (lines 77-116). [asked_at] and [answered_at] are the two
    readings of [new Date().toLocaleTimeString()]. *)
Definition askQuestion (backend : completion JS.value) (asked_at answered_at : string)
  : action state unit :=
  fun st =>
    if negb (str_truthy (trim (currentQuestion st))) || negb (bool_decide (is_Some (modelInfo st)))
    then (Normal tt, st)
    else
      (modify (setChatMessages
                 (push {| type := user; message := Str (currentQuestion st);
                          timestamp := asked_at |}));;
       modify (setIsAsking true);;
       modify (setCurrentQuestion EmptyString);;
       finally
         (try_catch
            (data ← lift backend;
             response ← lift (get data "response");
             modify (setChatMessages
                       (push {| type := ai;
                                message := JS.or response
                                  (Str "Sorry, I couldn't process that question.");
                                timestamp := answered_at |})))
            (fun _ => modify (setChatMessages
                                (push {| type := ai;
                                         message := Str "Sorry, there was an error processing your question.";
                                         timestamp := answered_at |}))))
         (modify (setIsAsking false))) st.

(** One iteration of [chatMessages.map((msg, index) => ...)] (lines
    252-265): the text and the timestamp, [None] when the text is no valid
    React child. *)
Definition render_message (msg : ChatMessage) : option (list Dashboard.node) :=
  match Dashboard.react_child (message msg) with
  | Some body => Some [Dashboard.P body; Dashboard.P [Dashboard.Text (timestamp msg)]]
  | None => None
  end.

(** [sampleQuestions] (lines 118-123). *)
Definition sampleQuestions : list string :=
  [ "Does getting more sleep help my activity levels?";
    "What's my optimal sleep for recovery?";
    "Should I go to bed earlier?";
    "How does my sleep affect my performance?" ].

(** [disabled] of the "Ask" button (line 309). *)
Definition askButton_disabled (st : state) : bool :=
  negb (str_truthy (trim (currentQuestion st))) || isAsking st.

(** What the user and the backend make the page do: typing or clicking a
    sample question sets [currentQuestion]; a completed request is one
    interaction. *)
Inductive interaction :=
| QuestionChanged (q : string)
| TrainPressed (backend : completion JS.value) (now : string)
| AskPressed (backend : completion JS.value) (asked_at answered_at : string).

Definition interact (st : state) (i : interaction) : state :=
  match i with
  | QuestionChanged q => setCurrentQuestion q st
  | TrainPressed backend now => snd (startTraining backend now st)
  | AskPressed backend asked_at answered_at =>
      snd (askQuestion backend asked_at answered_at st)
  end.

Definition session (interactions : list interaction) (st : state) : state :=
  fold_left interact interactions st.

(** The items of [(modelInfo.capabilities || []).map(...)] (lines
    210-215): each capability is the child of its list item. *)
Fixpoint render_capabilities (items : list JS.value)
  : option (list (list Dashboard.node)) :=
  match items with
  | [] => Some []
  | capability :: rest =>
      match Dashboard.react_child capability, render_capabilities rest with
      | Some item, Some others => Some (item :: others)
      | _, _ => None
      end
  end.

(** The "AI Model Ready!" panel (lines 185-224): the number of training
    samples and the list of capabilities. [None] when the render throws:
    the samples are no valid React child, the capabilities are a truthy
    value without [map] (anything but an array), or a capability is no
    valid React child. *)
Definition render_model (m : ModelInfo)
  : option (list Dashboard.node * list (list Dashboard.node)) :=
  match Dashboard.react_child (training_samples m),
        JS.or (capabilities m) (Arr []) with
  | Some samples, Arr items =>
      match render_capabilities items with
      | Some listed => Some (samples, listed)
      | None => None
      end
  | _, _ => None
  end.

(** Whether the page renders a state. Without a model the training
    section shows the start button or the progress of the training and the
    chat section shows a notice (lines 150-183, 236-241): constant texts,
    the status string and the progress number. With a model the page shows
    the model panel and the transcript (lines 185-224, 242-279). *)
Definition renders (st : state) : bool :=
  match modelInfo st with
  | None => true
  | Some m =>
      bool_decide (is_Some (render_model m))
      && forallb (fun msg => bool_decide (is_Some (render_message msg))) (chatMessages st)
  end.

(** The page after an interaction, [None] when the render that follows it
    throws: nothing catches that exception, React unmounts the component
    and no further interaction reaches it. The states a handler passes
    through on its way show a part of what its last state shows, beside the
    progress panel, which cannot throw. *)
Definition mounted_interact (st : state) (i : interaction) : option state :=
  let '(c, st') :=
    match i with
    | QuestionChanged q => (Normal tt, setCurrentQuestion q st)
    | TrainPressed backend now => startTraining backend now st
    | AskPressed backend asked_at answered_at =>
        askQuestion backend asked_at answered_at st
    end in
  match c with
  | Normal _ => if renders st' then Some st' else None
  | Throw _ => None
  end.

Fixpoint mounted_session (interactions : list interaction) (st : state) : option state :=
  match interactions with
  | [] => Some st
  | i :: rest =>
      match mounted_interact st i with
      | Some st' => mounted_session rest st'
      | None => None
      end
  end.

End AITrainer.

(* ===================================================================== *)
(** ** The endpoints of the design notes (src/unnamed/part_002, lines
       137-149)                                                           *)
(* ===================================================================== *)

Module Endpoints.
Import JS.


End Endpoints.

(* ===================================================================== *)
(** ** [UploadPage] (src/frontend/src/app/upload/page.tsx)                *)
(* ===================================================================== *)

Module Upload.
Import JS Eff.

(** [s.endsWith(suffix)]: [s] itself or one of its tails is [suffix]. *)
Fixpoint endsWith (s suffix : string) : bool :=
  bool_decide (s = suffix) ||
  match s with
  | String _ rest => endsWith rest suffix
  | EmptyString => false
  end.

(** The chosen file, as far as the handler looks at it. *)
Record file := { name : string }.

(** [uploadResult] and [error] hold [null] or what the handler stored. *)
Record state := {
  uploading : bool;
  uploadResult : JS.value;
  error : JS.value }.

Definition initial : state :=
  {| uploading := false; uploadResult := Null; error := Null |}.

Definition setUploading (b : bool) (st : state) : state :=
  {| uploading := b; uploadResult := uploadResult st; error := error st |}.

Definition setUploadResult (v : JS.value) (st : state) : state :=
  {| uploading := uploading st; uploadResult := v; error := error st |}.

Definition setError (v : JS.value) (st : state) : state :=
  {| uploading := uploading st; uploadResult := uploadResult st; error := v |}.

(** The settled [fetch]: [response.ok] and the completion of
    [response.json()]. *)
Record response := {
  ok : bool;
  json : completion JS.value }.

(** [handleFileUpload] (lines 12-47). [chosen] is [event.target.files?.[0]];
    [backend] is the completion of the [fetch]. *)
Definition handleFileUpload (chosen : option file) (backend : completion response)
  : action state unit :=
  fun st =>
    match chosen with
    | None => (Normal tt, st)
    | Some f =>
        if negb (endsWith (name f) ".xml")
        then modify (setError (Str "Please select an XML file from Apple Health export")) st
        else
          (modify (setUploading true);;
           modify (setError Null);;
           modify (setUploadResult Null);;
           finally
             (try_catch
                (resp ← lift backend;
                 result ← lift (json resp);
                 if ok resp
                 then modify (setUploadResult result)
                 else
                   (e ← lift (get result "error");
                    modify (setError (JS.or e (Str "Upload failed")))))
                (fun _ => modify (setError (Str "Network error. Please try again."))))
             (modify (setUploading false))) st
    end.

(** The error panel [{error && (... <p>{error}</p> ...)}] (lines 137-143)
    is on the page: [error] is truthy and a valid React child. A truthy
    [error] that is no valid child, an object, makes the render throw. *)
Definition error_shown (st : state) : bool :=
  truthy (error st) &&
  match Dashboard.react_child (error st) with
  | Some _ => true
  | None => false
  end.

End Upload.

(* ===================================================================== *)
(** ** [InsightsPage] (src/frontend/src/app/insights/page.tsx): the
       "split" layout of the insights tab                                 *)
(* ===================================================================== *)

Module InsightsPage.
Local Open Scope Q_scope.

(** [interface Insight] (lines 7-12). *)
Record Insight := {
  title : string;
  description : string;
  correlation : Q;
  confidence : Q }.

(** [insights.filter(i => i.confidence > 0.7)] (line 346). *)
Definition high_confidence (insights : list Insight) : list Insight :=
  List.filter (fun i => negb (Qle_bool (confidence i) (7 # 10))) insights.

(** [insights.filter(i => i.confidence <= 0.7)] (line 355). *)
Definition moderate_confidence (insights : list Insight) : list Insight :=
  List.filter (fun i => Qle_bool (confidence i) (7 # 10)) insights.

End InsightsPage.

(* ===================================================================== *)
(** ** Source prioritization (src/README.md, lines 212-223)               *)
(* ===================================================================== *)

Module Unifier.

(** A Python value of the excerpt: a number, or [None]. [d.get(date)] is
    [None] for a date the dictionary does not hold. *)
Definition pyval := option Q.

(** Python truth value: [None] and [0] are false. *)
Definition truthy (v : pyval) : bool :=
  match v with
  | Some q => negb (Qnum q =? 0)
  | None => false
  end.

(** [a or b] *)
Definition py_or (a b : pyval) : pyval := if truthy a then a else b.

(** The [if/elif] chain of the excerpt, for one date. Dates are day
    numbers. The outer [None] stands for a metric type the chain has no
    branch for: [value] is then not assigned. *)
Definition prioritize (metric_type : string) (oura_data apple_data : gmap Z Q)
  (date : Z) : option pyval :=
  if bool_decide (metric_type = "sleep"%string)
  then Some (py_or (oura_data !! date) (apple_data !! date))
  else if bool_decide (metric_type = "steps"%string)
  then Some (py_or (apple_data !! date) (oura_data !! date))
  else if bool_decide (metric_type = "heart_rate"%string)
  then Some (py_or (oura_data !! date) (apple_data !! date))
  else None.

(** Modelled from the spec: the source tag of a raw reading (section 4.1);
    the two sources are those of the excerpt. *)
Inductive source_tag := oura | apple.

#[export] Instance source_tag_eq_dec : EqDecision source_tag.
Proof. solve_decision. Defined.

(** Modelled from the spec: a raw reading of section 4.1 (date, metric
    kind, value, source tag); the reading type is not in the repository's
    files. *)
Record reading := {
  date : Z;
  kind : string;
  value : Q;
  source : source_tag }.

(** Modelled from the spec: what identifies a reading in a well-formed
    collection, a series having unique dates (section 3). *)
Definition reading_key (r : reading) : source_tag * string * Z :=
  (source r, kind r, date r).

(** Modelled from the spec: the body of [merge_health_data] is not in the
    repository's files. Per section 4.1, a reading belongs to the series of
    its source and kind, under its date. *)
Definition select_reading (src : source_tag) (k : string) (r : reading)
  : option (Z * Q) :=
  if bool_decide (source r = src /\ kind r = k) then Some (date r, value r) else None.

(** Modelled from the spec: the body of [merge_health_data] is not in the
    repository's files. Per section 4.1, the readings of one source and
    one kind form that source's series, keyed by date. *)
Definition source_data (src : source_tag) (k : string) (readings : list reading)
  : gmap Z Q :=
  list_to_map (omap (select_reading src k) readings).

(** Modelled from the spec: per section 4.1, the unified series of a kind
    holds, in increasing date order, one entry per date for which the
    prioritization yields a value; a date without a value is absent. The
    value itself is the one [prioritize] selects. *)
Definition merge_series (k : string) (oura_data apple_data : gmap Z Q)
  : list (Z * Q) :=
  omap (fun d =>
          match prioritize k oura_data apple_data d with
          | Some (Some v) => Some (d, v)
          | _ => None
          end)
       (merge_sort Z.le (elements (dom oura_data ∪ dom apple_data))).

(** Modelled from the spec: the metric kinds of section 3 and the glossary.
    The excerpt has no branch for calories. *)
Definition metric_kinds : list string := ["sleep"; "steps"; "heart_rate"; "calories"].

(** Modelled from the spec: [unify(user, raw_readings) -> UnifiedDataset]
    of section 6, a series per metric kind. *)
Definition unify (user : string) (raw_readings : list reading)
  : list (string * list (Z * Q)) :=
  map (fun k => (k, merge_series k (source_data oura k raw_readings)
                                   (source_data apple k raw_readings)))
      metric_kinds.

End Unifier.

(* ===================================================================== *)
(** ** Anomaly detection (src/README.md, lines 326-344)                   *)
(* ===================================================================== *)

Module Anomaly.

Record warning := {
  title : string;
  message : string;
  context : string;
  recommendation : string }.

(** How a call of the excerpt ends. The excerpt has no [return] statement:
    a call that reaches its end returns [None], and [ReturnsNone] records
    what the local list [warnings] holds at that point. Reading a name
    that is not bound raises [NameError]. *)
Inductive outcome :=
| ReturnsNone (warnings : list warning)
| NameError (name : string).

Section Excerpt.
(** The numbers of the excerpt, with Python's [+] and [*] on them and the
    literal [2] among them. *)
Variable number : Type.
Variable add mul : number -> number -> number.
Variable of_int : Z -> number.
(** The helpers the excerpt calls; they are not in the repository's
    files. *)
Variable calculate_personal_baseline : list number -> number.
Variable count_consecutive_above_threshold : list number -> number -> nat.
(** The names the excerpt reads without binding them, as the globals of
    its module have them: [None] for a name that is not bound. Nothing in
    the repository's files binds any of them. For [consecutive_days] the
    value is the text the f-string makes of it. *)
Variables heart_rate_history recent_heart_rate : option (list number).
Variable std_deviation : option number.
Variable consecutive_days : option string.

Definition detect_health_anomalies (sleep_data activity_data readiness_data : list number)
  : outcome :=
  let warnings := [] in
  match heart_rate_history with
  | None => NameError "heart_rate_history"
  | Some history =>
      let baseline_hr := calculate_personal_baseline history in
      match recent_heart_rate with
      | None => NameError "recent_heart_rate"
      | Some recent =>
          match std_deviation with
          | None => NameError "std_deviation"
          | Some deviation =>
              let consecutive_elevated_days :=
                count_consecutive_above_threshold recent
                  (add baseline_hr (mul (of_int 2) deviation)) in
              if (3 <=? consecutive_elevated_days)%nat
              then
                match consecutive_days with
                | None => NameError "consecutive_days"
                | Some days =>
                    ReturnsNone
                      (warnings ++
                       [ {| title := "Elevated Resting Heart Rate";
                            message := String.app "Elevated for "
                                         (String.app days " consecutive days");
                            context := "Previously correlated with stress or early illness";
                            recommendation := "Consider rest and monitor symptoms" |} ])
                end
              else ReturnsNone warnings
          end
      end
  end.
End Excerpt.

Section Counting.
Variable number : Type.
(** Python's [>] on the numbers. *)
Variable gt : number -> number -> bool.

(** Modelled from the spec: per section 4.3 a day is elevated when its
    value exceeds the threshold (the helper that tests it is not in the
    repository's files). *)
Definition above (threshold : number) (v : number) : bool := gt v threshold.

(** Modelled from the spec: the number of consecutive elevated days a
    series starts with (part of the absent counting helper). *)
Fixpoint leading_run (threshold : number) (days : list number) : nat :=
  match days with
  | v :: rest => if above threshold v then S (leading_run threshold rest) else 0
  | [] => 0
  end.

(** Modelled from the spec: [count_consecutive_above_threshold] is not in
    the repository's files. Per section 4.3 a deviation counts by the
    length of its consecutive-day run: the longest run of days whose value
    exceeds the threshold. *)
Fixpoint longest_run_above (days : list number) (threshold : number) : nat :=
  match days with
  | [] => 0
  | _ :: rest => Nat.max (leading_run threshold days) (longest_run_above rest threshold)
  end.
End Counting.

End Anomaly.

(* ===================================================================== *)
(** ** Correlation engine (spec section 4.2)                              *)
(* ===================================================================== *)

(** The engine is not in the repository's files: every definition of this
    module follows the words of spec sections 3, 4.2 and 6. *)
Module Correlation.
Local Open Scope Q_scope.

(** Modelled from the spec: a MetricSeries of section 3, the value of each
    present date (dates are unique). *)
Abbreviation series := (gmap Z Q).

(** Modelled from the spec: the Insight of section 3, with the two kinds
    it references, the lag of the variant and the sample size it ranks by. *)
Record Insight := {
  first_kind : string;
  second_kind : string;
  lagged : bool;
  title : string;
  description : string;
  correlation : Q;
  confidence : Q;
  samples : nat }.

(** Modelled from the spec: the sums over aligned pairs that the linear
    correlation coefficient of section 4.2 is made of. *)
Definition total (f : Q * Q -> Q) (pairs : list (Q * Q)) : Q :=
  foldr (fun p acc => f p + acc) 0 pairs.

(** Modelled from the spec: the sample size of section 4.2, as a number. *)
Definition count (pairs : list (Q * Q)) : Q := inject_Z (Z.of_nat (length pairs)).

(** Modelled from the spec: [n * sum f^2 - (sum f)^2], which is [n]
    squared times the variance of the component [f] of the pairs. *)
Definition spread (f : Q * Q -> Q) (pairs : list (Q * Q)) : Q :=
  count pairs * total (fun p => f p * f p) pairs - total f pairs * total f pairs.

(** Modelled from the spec: the spread of the first series of a pair. *)
Definition spread_x (pairs : list (Q * Q)) : Q := spread fst pairs.

(** Modelled from the spec: the spread of the second series of a pair. *)
Definition spread_y (pairs : list (Q * Q)) : Q := spread snd pairs.

(** Modelled from the spec: [n] squared times the covariance. *)
Definition co_spread (pairs : list (Q * Q)) : Q :=
  count pairs * total (fun p => fst p * snd p) pairs - total fst pairs * total snd pairs.

(** Modelled from the spec: what computing a coefficient can end with
    (section 4.2, edge cases). *)
Inductive outcome :=
| Undefined_correlation       (** a series without variance: excluded *)
| Coefficient (r : Q)
| DivisionError               (** a division by zero *).

(** Modelled from the spec: a division, which fails on a zero divisor. *)
Definition divide (a b : Q) : option Q :=
  if Qeq_bool b 0 then None else Some (a / b).

Section Engine.
(** The square root of the arithmetic library, the confidence heuristic
    (section 4.2, step 3) and the number of insights kept (step 4) are the
    engine's parameters. *)
Variable sqrtQ : Q -> Q.
Variable confidence_of : nat -> Q -> Q.
Variable top_k : nat.

(** Modelled from the spec: the minimum sample size of section 4.2, step 1. *)
Definition min_samples : nat := 5.

(** Modelled from the spec: the linear correlation coefficient of section
    4.2, step 2, the covariance over the product of the two standard
    deviations, with the edge case of the section: a constant series
    yields an undefined correlation. *)
Definition correlate (pairs : list (Q * Q)) : outcome :=
  if Qeq_bool (spread_x pairs) 0 || Qeq_bool (spread_y pairs) 0
  then Undefined_correlation
  else
    match divide (co_spread pairs) (sqrtQ (spread_x pairs) * sqrtQ (spread_y pairs)) with
    | Some r => Coefficient r
    | None => DivisionError
    end.

(** Modelled from the spec: section 4.2, step 1, the inner join of two
    series on shared dates; [lag] is the day offset of the second series
    (0, or 1 for the lagged variant of step 2). *)
Definition align (lag : Z) (s1 s2 : series) : list (Q * Q) :=
  omap (fun '(d, x) =>
          match s2 !! (d + lag)%Z with
          | Some y => Some (x, y)
          | None => None
          end)
       (map_to_list s1).

(** Modelled from the spec: the insight of one pair of kinds, if any: none
    below the minimum sample size (step 1), none for an undefined
    correlation (edge cases). *)
Definition insight_of (lag : bool) (k1 : string) (s1 : series) (k2 : string) (s2 : series)
  : option Insight :=
  let pairs := align (if lag then 1%Z else 0%Z) s1 s2 in
  if (length pairs <? min_samples)%nat then None
  else
    match correlate pairs with
    | Coefficient r =>
        Some {| first_kind := k1; second_kind := k2; lagged := lag;
                title := String.app k1 (String.app " and " k2);
                description :=
                  if lag
                  then String.app k1 (String.app " relates to next-day " k2)
                  else String.app k1 (String.app " relates to " k2);
                correlation := r;
                confidence := confidence_of (length pairs) (Qabs r);
                samples := length pairs |}
    | _ => None
    end.

(** Modelled from the spec: the pairs of metric series of a dataset
    (section 4.2), each taken once. *)
Fixpoint pairings {A} (l : list A) : list (A * A) :=
  match l with
  | [] => []
  | x :: rest => map (pair x) rest ++ pairings rest
  end.

(** Modelled from the spec: every pair of kinds of the dataset, directly
    and with a one-day lag in either direction. *)
Definition candidates (dataset : gmap string series) : list Insight :=
  flat_map
    (fun '((k1, s1), (k2, s2)) =>
       omap id [ insight_of false k1 s1 k2 s2;
                 insight_of true k1 s1 k2 s2;
                 insight_of true k2 s2 k1 s1 ])
    (pairings (map_to_list dataset)).

(** Modelled from the spec: the ranking key of section 4.2, step 4. *)
Definition score (i : Insight) : Q := Qabs (correlation i) * confidence i.

(** Modelled from the spec: the ranking of step 4, [|correlation| x
    confidence] descending, ties by sample size (larger first), then by
    kind name. *)
Definition ranks_before (i j : Insight) : bool :=
  if Qeq_bool (score i) (score j)
  then if (samples i =? samples j)%nat
       then String.leb (first_kind i) (first_kind j)
       else (samples j <? samples i)%nat
  else Qle_bool (score j) (score i).

(** Modelled from the spec: insertion in a ranked list (step 4). *)
Fixpoint insert_ranked (i : Insight) (ranked : list Insight) : list Insight :=
  match ranked with
  | [] => [i]
  | j :: rest => if ranks_before i j then i :: ranked else j :: insert_ranked i rest
  end.

(** Modelled from the spec: the ranked list of step 4. *)
Definition rank (l : list Insight) : list Insight := foldr insert_ranked [] l.

(** Modelled from the spec: the [insights] of [analyze(user, dataset)]
    (section 6): the top-K of the ranked candidates. *)
Definition insights (user : string) (dataset : gmap string series) : list Insight :=
  take top_k (rank (candidates dataset)).

End Engine.

End Correlation.

(* ===================================================================== *)
(** * The terms of the statements, and example data                      *)
(* ===================================================================== *)

Import JS Eff.

Section ChatRenderingTerms.
Import Dashboard.

(** A chat answer [{response: r, confidence: 0}], as parsed from the body. *)
Definition zero_confidence_answer (r : string) : JS.value :=
  Obj (<["response" := Str r]> (<["confidence" := Num 0]> ∅)).

End ChatRenderingTerms.

Section ChatInvocationTerms.



End ChatInvocationTerms.

Section TrainResponseTerms.



(** A number-to-string conversion that agrees with JavaScript's on the
    integers. *)
Definition show_integer (q : Q) : string := pretty (Qfloor q).

Definition trained_response : gmap string JS.value :=
  <["status" := Str "trained"]>
    (<["data_points" := Num 30]>
       (<["models_trained" := Arr [Str "sleep"; Str "steps"]]> ∅)).

End TrainResponseTerms.

Section DayNavigationTerms.
Import Dashboard.

(** The invariant the handlers keep. *)
Definition index_in_range (st : state) : Prop :=
  0 <= currentDayIndex st <= sleep_length_or_1 st - 1.

Definition three_nights : list point :=
  [ {| date := "2024-03-03"; value := 7 |};
    {| date := "2024-03-02"; value := 6 |};
    {| date := "2024-03-01"; value := 8 |} ].

Definition three_nights_data : HealthData :=
  {| metrics := Some (<["sleep" := three_nights]> ∅); source := Some "oura"%string |}.

Definition some_clicks : list event :=
  [ DataLoaded three_nights_data; ClickPreviousDay; ClickPreviousDay;
    ClickPreviousDay; ClickPreviousDay; ClickNextDay ].

End DayNavigationTerms.

Section EmptyStatePropsTerms.
Import Dashboard.

(** The metrics map is empty, or the sleep series is missing or empty. *)
Definition no_sleep_data (hd : HealthData) : Prop :=
  metrics hd = Some ∅ \/
  series "sleep" (Some hd) = None \/
  series "sleep" (Some hd) = Some [].

Definition steps_and_calories : HealthData :=
  {| metrics :=
       Some (<["steps" := [ {| date := "2024-03-01"; value := 9000 |} ]]>
               (<["calories" := [ {| date := "2024-03-01"; value := 2100 |} ]]> ∅));
     source := Some "apple_health"%string |}.

End EmptyStatePropsTerms.

Section MinimalAveragesTerms.
Import Dashboard.
Local Open Scope Q_scope.

(** The arithmetic mean of the entries present. *)
Definition mean (items : list point) : Q :=
  sum_values items / inject_Z (Z.of_nat (length items)).

(** The mean of the entries present as the arithmetic of the page gives
    it: their sum in doubles, over their number. *)
Definition double_mean (items : list point) : IEEE.double :=
  IEEE.div (double_sum items) (Z.of_nat (length items)).

(** A double that is not negative. *)
Definition nonneg (d : IEEE.double) : Prop :=
  match d with
  | IEEE.Finite x => 0 <= x
  | IEEE.Infinity negative => negative = false
  | IEEE.NaN => False
  end.

Definition six_single_steps : list point :=
  repeat {| date := "2024-03-01"; value := 1 |} 6.

Definition six_single_steps_data : HealthData :=
  {| metrics := Some (<["steps" := six_single_steps]> (<["sleep" := three_nights]> ∅));
     source := None |}.

End MinimalAveragesTerms.

Section PrioritizationTerms.
Import Unifier.

(** The priority order of a kind: the source asked first, then the other. *)
Definition kind_priority (k : string) : option (source_tag * source_tag) :=
  if bool_decide (k = "sleep"%string) then Some (oura, apple)
  else if bool_decide (k = "steps"%string) then Some (apple, oura)
  else if bool_decide (k = "heart_rate"%string) then Some (oura, apple)
  else None.

Definition data_of (src : source_tag) (oura_data apple_data : gmap Z Q) : gmap Z Q :=
  match src with oura => oura_data | apple => apple_data end.

End PrioritizationTerms.

Section DeterminismTerms.
Import Unifier.

(** Identical raw inputs: the same list of readings, or the same
    collection of readings, one per source, kind and date, listed in
    another order. *)
Definition same_readings (r1 r2 : list reading) : Prop :=
  r1 = r2 \/ (NoDup (reading_key <$> r1) /\ r1 ≡ₚ r2).

Definition night_oura : reading :=
  {| date := 19784; kind := "sleep"; value := 7 # 1; source := oura |}.

Definition night_apple : reading :=
  {| date := 19784; kind := "sleep"; value := 13 # 2; source := apple |}.

Definition walk_apple : reading :=
  {| date := 19784; kind := "steps"; value := 9000 # 1; source := apple |}.

End DeterminismTerms.

Section RunsTerms.
Import Anomaly.

(** [days] holds [k] consecutive days above the threshold. *)
Definition has_run {number : Type} (gt : number -> number -> bool) (k : nat)
  (threshold : number) (days : list number) : Prop :=
  exists before run after,
    days = before ++ run ++ after /\ length run = k /\
    Forall (fun v => gt v threshold = true) run.

(** Modelled from the spec: the deviation of section 4.3, on integers: a
    day beyond baseline + 2 x stddev or below baseline - 2 x stddev. *)
Definition deviates (baseline stddev : Z) (v : Z) : bool :=
  (baseline + 2 * stddev <? v) || (v <? baseline - 2 * stddev).

(** Modelled from the spec: [days] holds [k] consecutive deviating
    days. *)
Definition has_deviation_run (k : nat) (baseline stddev : Z) (days : list Z) : Prop :=
  exists before run after,
    days = before ++ run ++ after /\ length run = k /\
    Forall (fun v => deviates baseline stddev v = true) run.

(** A week at rest around 60 bpm: baseline 60, deviation 2, band 56 to
    64. *)
Definition resting_baseline (history : list Z) : Z := 60.

Definition resting_week : list Z := [60; 59; 61; 60; 62; 58; 60].

(** The excerpt on integer heart rates, with the run counted as the
    longest run above the threshold; [consecutive_days] is not bound. *)
Definition detect_resting (recent : list Z) : outcome :=
  detect_health_anomalies Z Z.add Z.mul (fun z => z) resting_baseline
    (longest_run_above Z Z.gtb) (Some resting_week) (Some recent) (Some 2) None [] [] [].

End RunsTerms.

Section ConstantSeriesTerms.
Import Correlation.
Local Open Scope Q_scope.

(** Every present value of the series equals [c]. *)
Definition constant (s : series) (c : Q) : Prop :=
  forall d v, s !! d = Some v -> v == c.

End ConstantSeriesTerms.

Section ConstantSeriesExampleTerms.
Import Correlation.
Local Open Scope Q_scope.

(** An upper square root on the rationals: positive on positive numbers,
    exact on the squares of integers. *)
Definition sqrt_up (x : Q) : Q :=
  Z.sqrt_up (Qnum x * Z.pos (Qden x)) # Qden x.

(** A confidence heuristic: growing with the sample size and the
    magnitude of the correlation, capped at 1. *)
Definition capped_confidence (n : nat) (magnitude : Q) : Q :=
  Qmin 1 (magnitude * inject_Z (Z.of_nat n) / 10).

Definition week_of_sleep : series :=
  list_to_map [(1%Z, 7); (2%Z, 7); (3%Z, 8); (4%Z, 6); (5%Z, 5); (6%Z, 5); (7%Z, 9)].

Definition week_of_steps : series :=
  list_to_map [(1%Z, 70); (2%Z, 72); (3%Z, 85); (4%Z, 61); (5%Z, 50); (6%Z, 52); (7%Z, 90)].

Definition steady_heart_rate : series := (fun _ => 60) <$> week_of_sleep.

Definition week_dataset : gmap string series :=
  <["sleep" := week_of_sleep]>
    (<["steps" := week_of_steps]> (<["heart_rate" := steady_heart_rate]> ∅)).

End ConstantSeriesExampleTerms.

Section BlankTerms.

(** A string of white space only, the empty string included. *)
Fixpoint all_white_space (s : string) : bool :=
  match s with
  | EmptyString => true
  | String c rest => is_white_space c && all_white_space rest
  end.

End BlankTerms.

Section DashboardSessionTerms.
Import Dashboard.

(** What the answer to a chat request adds to the transcript: the AI
    message built from the body, the apology when the request or the
    parsing failed, or the exception of the updater that reads a property
    of a body [null]. *)
Definition chat_reply (backend : completion JS.value) : completion chat_message :=
  match backend with
  | Normal data =>
      match get data "response", get data "confidence" with
      | Normal response, Normal conf =>
          Normal {| type := ai; message := response; confidence := conf |}
      | Throw e, _ | _, Throw e => Throw e
      end
  | Throw _ => Normal chat_apology
  end.

(** The training request was answered by a body whose [status] is the
    string 'trained'. *)
Definition quick_train_succeeded (backend : completion JS.value) : bool :=
  match backend with
  | Normal result =>
      match get result "status" with
      | Normal status => strict_eq_str status "trained"
      | Throw _ => false
      end
  | Throw _ => false
  end.

(** The AI message a completed quick training leaves in the transcript. *)
Definition train_reply (number_to_string : Q -> string) (backend : completion JS.value)
  : chat_message :=
  match backend with
  | Normal result =>
      match get result "status" with
      | Normal status =>
          if strict_eq_str status "trained"
          then ai_text (trained_text number_to_string result)
          else {| type := ai;
                  message := JS.or (own result "message")
                    (Str "Training failed. Please ensure you have health data connected.");
                  confidence := Undefined |}
      | Throw _ => ai_text "Failed to train AI model. Please try again."
      end
  | Throw _ => ai_text "Failed to train AI model. Please try again."
  end.

(** Every user message of a transcript is directly followed by an AI
    message. *)
Fixpoint answered (transcript : list chat_message) : bool :=
  match transcript with
  | [] => true
  | m :: rest =>
      match type m with
      | ai => answered rest
      | user =>
          match rest with
          | r :: _ => match type r with ai => answered rest | user => false end
          | [] => false
          end
      end
  end.

(** No request is pending and no question is left without an answer. *)
Definition quiet (st : state) : Prop :=
  answered (chatMessages st) = true /\ isLoadingChat st = false /\ isTrainingAI st = false.

Definition is_navigation (i : interaction) : bool :=
  match i with
  | Navigated _ => true
  | _ => false
  end.

(** The charts a page shows: those embedded among the cards, then those of
    [renderCharts()]. *)
Definition charts_of (v : charts_view) : list chart :=
  match v with
  | Charts cards => cards
  | RecentTrends _ _ | NoCharts => []
  end.

Definition all_charts (st : state) : list chart :=
  embedded_charts (renderMetricsCards st) ++ charts_of (renderCharts st).

(** The value of the first metric card, "Sleep". *)
Definition sleep_card_value (st : state) : option Q :=
  metric_value <$> head (metrics_of st).

Definition three_nights_loaded : state := handle initial (DataLoaded three_nights_data).

Definition typed_then_asked : list interaction :=
  [ InputChanged "Should I take a rest day?";
    AskPressed (Throw NetworkError);
    QuickTrainPressed (Normal (Obj (<["status" := Str "error"]> ∅))) ].

Definition loaded_then_back : list interaction :=
  [ Navigated (DataLoaded three_nights_data); Navigated ClickPreviousDay;
    InputChanged "hello"; AskPressed (Throw NetworkError) ].



End DashboardSessionTerms.

Section TrainerSessionTerms.
Import AITrainer.

(** The training request was answered by a body whose [status] is the
    string 'trained'. *)
Definition training_succeeded (backend : completion JS.value) : bool :=
  match backend with
  | Normal result =>
      match get result "status" with
      | Normal st => strict_eq_str st "trained"
      | Throw _ => false
      end
  | Throw _ => false
  end.

(** The AI message a completed question leaves in the transcript. *)
Definition ask_reply (backend : completion JS.value) (answered_at : string) : ChatMessage :=
  match backend with
  | Normal data =>
      match get data "response" with
      | Normal response =>
          {| type := ai;
             message := JS.or response (Str "Sorry, I couldn't process that question.");
             timestamp := answered_at |}
      | Throw _ =>
          {| type := ai; message := Str "Sorry, there was an error processing your question.";
             timestamp := answered_at |}
      end
  | Throw _ =>
      {| type := ai; message := Str "Sorry, there was an error processing your question.";
         timestamp := answered_at |}
  end.

(** A transcript made of pairs: a user message, then an AI message. *)
Fixpoint paired (transcript : list ChatMessage) : bool :=
  match transcript with
  | [] => true
  | q :: a :: rest =>
      match type q, type a with
      | user, ai => paired rest
      | _, _ => false
      end
  | [_] => false
  end.

(** What a stored message holds: a question is a string that is not
    empty, an answer is a truthy value. *)
Definition stored (m : ChatMessage) : Prop :=
  match type m with
  | user => exists q, message m = Str q /\ q <> EmptyString
  | ai => truthy (message m) = true
  end.

(** No request is pending, the transcript is made of question and answer
    pairs, each holding what [stored] says, and it is empty unless a model
    is loaded. *)
Definition settled (st : state) : Prop :=
  isTraining st = false /\ isAsking st = false /\
  paired (chatMessages st) = true /\
  Forall stored (chatMessages st) /\
  (chatMessages st <> [] -> is_Some (modelInfo st)).



Definition trained_then_asked : list interaction :=
  [ TrainPressed (Normal (Obj trained_response)) "2024-03-01T08:00:00.000Z";
    QuestionChanged "Should I go to bed earlier?";
    AskPressed (Throw NetworkError) "08:01:00" "08:01:02" ].

End TrainerSessionTerms.

Section UploadTerms.
Import Upload.

Definition zip_export : file := {| name := "export.zip" |}.


End UploadTerms.

(* ===================================================================== *)
(** * Properties                                                          *)
(* ===================================================================== *)

(* --------------------------------------------------------------------- *)
(** ** The chat transcript                                                *)
(* --------------------------------------------------------------------- *)

Section ChatRendering.
Import Dashboard.

(** A truthy confidence is shown in a "Confidence: N%" line. *)
Lemma confidence_slot_truthy (c : JS.value) :
  truthy c = true -> confidence_slot c = Some [ConfidenceP c].
Proof. intros H. unfold confidence_slot. now rewrite H. Qed.

(** A confidence that is a number is labelled exactly when it is not 0. *)
Lemma confidence_slot_number (q : Q) :
  confidence_slot (Num q) =
  Some [if Qnum q =? 0 then Number q else ConfidenceP (Num q)].
Proof.
  unfold confidence_slot; simpl.
  destruct (Qnum q =? 0); reflexivity.
Qed.

(** The insights list labels every confidence, 0 included. *)
Lemma render_insight_labels_confidence (i : Insight) :
  ConfidenceP (Num (insight_confidence i)) ∈ render_insight i.
Proof. unfold render_insight. do 2 right. left. Qed.

(** C1 (evaluation at the failing input). For the answer
    [{response: r, confidence: 0}] the dashboard stores the confidence 0 in
    the transcript, and the rendered bubble holds the response paragraph
    followed by a bare number child 0: the guard [msg.confidence && ...]
    yields its falsy left operand, so no "Confidence: 0%" line is built. *)
Theorem zero_confidence_renders_without_label (r : string) :
  let st' := snd (sendChatMessage "Should I take a rest day?"
                    (Normal (zero_confidence_answer r)) initial) in
  chatMessages st' =
    [ user_message "Should I take a rest day?";
      {| type := ai; message := Str r; confidence := Num 0 |} ] /\
  map render_message (chatMessages st') =
    [ Some {| align := user; children := [P [Text "Should I take a rest day?"]] |};
      Some {| align := ai; children := [P [Text r]; Number 0] |} ] /\
  (forall c, ConfidenceP c ∉ [P [Text r]; Number 0]).
Proof.
  split; [reflexivity|]. split; [reflexivity|].
  intros c Hin.
  repeat (apply elem_of_cons in Hin as [Hin|Hin]; [discriminate Hin|]).
  now apply elem_of_nil in Hin.
Qed.

End ChatRendering.

(* --------------------------------------------------------------------- *)
(** ** Chat invocations never throw                                       *)
(* --------------------------------------------------------------------- *)

Section ChatInvocation.

(** The result of a dashboard chat invocation, in closed form. *)
Lemma sendChatMessage_result (text : string) (backend : completion JS.value)
  (st : Dashboard.state) :
  Dashboard.sendChatMessage text backend st =
  if negb (str_truthy (trim text)) || Dashboard.isLoadingChat st then (Normal tt, st)
  else
    match chat_reply backend with
    | Normal reply =>
        (Normal tt,
         {| Dashboard.healthData := Dashboard.healthData st;
            Dashboard.dataSource := Dashboard.dataSource st;
            Dashboard.currentDayIndex := Dashboard.currentDayIndex st;
            Dashboard.uiStyle := Dashboard.uiStyle st;
            Dashboard.chatMessages :=
              Dashboard.chatMessages st ++ [Dashboard.user_message text; reply];
            Dashboard.chatInput := EmptyString;
            Dashboard.isLoadingChat := false;
            Dashboard.isTrainingAI := Dashboard.isTrainingAI st;
            Dashboard.aiTrained := Dashboard.aiTrained st |})
    | Throw e =>
        (Throw e,
         {| Dashboard.healthData := Dashboard.healthData st;
            Dashboard.dataSource := Dashboard.dataSource st;
            Dashboard.currentDayIndex := Dashboard.currentDayIndex st;
            Dashboard.uiStyle := Dashboard.uiStyle st;
            Dashboard.chatMessages :=
              Dashboard.chatMessages st ++ [Dashboard.user_message text];
            Dashboard.chatInput := EmptyString;
            Dashboard.isLoadingChat := true;
            Dashboard.isTrainingAI := Dashboard.isTrainingAI st;
            Dashboard.aiTrained := Dashboard.aiTrained st |})
    end.
Proof.
  unfold Dashboard.sendChatMessage.
  destruct (negb (str_truthy (trim text)) || Dashboard.isLoadingChat st); [reflexivity|].
  destruct backend as [data|e]; [destruct data|];
    cbv [mbind action_bind bind lift try_catch finally modify get enqueue plain commit
         chat_reply Dashboard.push_answer Dashboard.setIsLoadingChat
         Dashboard.setChatMessages Dashboard.setChatInput Dashboard.push]; cbn;
    try rewrite <- app_assoc; reflexivity.
Qed.





End ChatInvocation.

(* --------------------------------------------------------------------- *)
(** ** The response of the training endpoint, as its callers read it      *)
(* --------------------------------------------------------------------- *)

Section TrainResponse.



End TrainResponse.

(* --------------------------------------------------------------------- *)
(** ** Day navigation                                                     *)
(* --------------------------------------------------------------------- *)

Section DayNavigation.
Import Dashboard.

Lemma sleep_length_or_1_pos (st : state) : 1 <= sleep_length_or_1 st.
Proof.
  unfold sleep_length_or_1.
  destruct (series "sleep" (healthData st)) as [sleep|]; [|lia].
  destruct (Nat.eqb_spec (length sleep) 0); lia.
Qed.

Lemma sleep_length_or_1_nonempty (st : state) (sleep : list point) :
  series "sleep" (healthData st) = Some sleep -> sleep <> [] ->
  sleep_length_or_1 st = Z.of_nat (length sleep).
Proof.
  intros Hs Hne. unfold sleep_length_or_1. rewrite Hs.
  destruct sleep; [congruence|]. reflexivity.
Qed.

Lemma handle_keeps_index_in_range (st : state) (e : event) :
  index_in_range st -> index_in_range (handle st e).
Proof.
  unfold index_in_range. intros H.
  destruct e as [data| | |style]; simpl.
  - pose proof (sleep_length_or_1_pos (dashboardLoaded data st)).
    unfold dashboardLoaded in *. simpl in *. lia.
  - change (sleep_length_or_1 (previousDay st)) with (sleep_length_or_1 st).
    pose proof (sleep_length_or_1_pos st). lia.
  - change (sleep_length_or_1 (nextDay st)) with (sleep_length_or_1 st).
    pose proof (sleep_length_or_1_pos st). lia.
  - exact H.
Qed.

Lemma run_keeps_index_in_range (events : list event) (st : state) :
  index_in_range st -> index_in_range (run events st).
Proof.
  revert st. induction events as [|e events IH]; intros st H; simpl.
  - exact H.
  - apply IH, handle_keeps_index_in_range, H.
Qed.

(** C10. In every state reachable from the initial one by data loads and
    clicks, if the loaded sleep series is non-empty then the day index lies
    in [0, sleep.length - 1]; the index starts at 0, a data load resets it
    to 0, "previous day" maps [i] to [min(sleep.length - 1, i + 1)] and
    "next day" maps [i] to [max(0, i - 1)]. *)
Theorem day_index_within_sleep_series (events : list event) (sleep : list point) :
  series "sleep" (healthData (run events initial)) = Some sleep ->
  sleep <> [] ->
  let st := run events initial in
  let last := Z.of_nat (length sleep) - 1 in
  0 <= currentDayIndex st <= last /\
  currentDayIndex initial = 0 /\
  (forall data, currentDayIndex (handle st (DataLoaded data)) = 0) /\
  currentDayIndex (handle st ClickPreviousDay) = Z.min last (currentDayIndex st + 1) /\
  currentDayIndex (handle st ClickNextDay) = Z.max 0 (currentDayIndex st - 1).
Proof.
  intros Hs Hne st last.
  assert (index_in_range st) as H.
  { apply run_keeps_index_in_range. unfold index_in_range. cbn. lia. }
  unfold index_in_range in H.
  pose proof (sleep_length_or_1_nonempty st sleep Hs Hne) as Hlen.
  rewrite Hlen in H.
  repeat split; try reflexivity; try apply H.
  simpl. unfold previousDay. simpl. now rewrite Hlen.
Qed.

(** C10 (witness). Three nights loaded, four clicks back and one forward:
    the index stays within [0, 2]. *)
Lemma day_index_witness :
  series "sleep" (healthData (run some_clicks initial)) = Some three_nights /\
  0 <= currentDayIndex (run some_clicks initial) <= 2.
Proof.
  split; [reflexivity|].
  apply (day_index_within_sleep_series some_clicks three_nights eq_refl).
  discriminate.
Defined.

End DayNavigation.

(* --------------------------------------------------------------------- *)
(** ** The empty state                                                    *)
(* --------------------------------------------------------------------- *)

Section EmptyStateProps.
Import Dashboard.

Lemma hasData_false_iff (hd : HealthData) :
  hasData hd = false <-> no_sleep_data hd.
Proof.
  unfold hasData, no_sleep_data, series.
  destruct (metrics hd) as [m|]; [|split; auto].
  destruct (m !! "sleep") as [sleep|] eqn:Hsleep.
  - assert ((0 <? size m)%nat = true) as ->.
    { apply Nat.ltb_lt.
      pose proof (map_size_ne_0_lookup_2 m "sleep" (mk_is_Some _ _ Hsleep)). lia. }
    simpl. destruct sleep as [|p sleep]; simpl.
    + split; auto.
    + split; [discriminate|].
      intros [H|[H|H]]; try discriminate.
      injection H as ->. rewrite lookup_empty in Hsleep. discriminate.
  - rewrite andb_false_r. split; auto.
Qed.

(** C9. Once the data is loaded, the page shows the "No Health Data
    Connected" state if and only if the metrics map is empty or the sleep
    series is missing or empty; it then renders no metric cards and no
    charts, and a dataset without a sleep series is such a case whatever
    its other series hold. *)
Theorem empty_state_iff_no_sleep (st : state) (hd : HealthData) :
  healthData st = Some hd ->
  (render st = Rendered EmptyState <-> no_sleep_data hd) /\
  (no_sleep_data hd ->
   forall cards charts, render st <> Rendered (DataView cards charts)) /\
  (forall m, metrics hd = Some m -> m !! "sleep" = None ->
             render st = Rendered EmptyState).
Proof.
  intros Hhd. unfold render. rewrite Hhd.
  pose proof (hasData_false_iff hd) as Hiff.
  destruct (hasData hd) eqn:Hd; simpl.
  - split; [|split].
    + split; [discriminate|]. intros H. apply Hiff in H. discriminate.
    + intros H. apply Hiff in H. discriminate.
    + intros m Hm Hs. assert (no_sleep_data hd) as H.
      { right; left. unfold series. now rewrite Hm. }
      apply Hiff in H. discriminate.
  - split; [|split].
    + split; [intros _; now apply Hiff | reflexivity].
    + intros _ cards charts. discriminate.
    + reflexivity.
Qed.

(** C9 (witness). A dataset with steps and calories only shows the empty
    state. *)
Lemma empty_state_witness :
  healthData (dashboardLoaded steps_and_calories initial) = Some steps_and_calories /\
  render (dashboardLoaded steps_and_calories initial) = Rendered EmptyState.
Proof.
  split; [reflexivity|].
  refine (proj2 (proj2 (empty_state_iff_no_sleep
                          (dashboardLoaded steps_and_calories initial)
                          steps_and_calories eq_refl)) _ eq_refl _).
  reflexivity.
Defined.

End EmptyStateProps.

(* --------------------------------------------------------------------- *)
(** ** Rounding to the nearest double is monotone                         *)
(* --------------------------------------------------------------------- *)

Section Binary64.
Import IEEE.
Local Open Scope Q_scope.

Lemma two_neq_0 : ~ 2 == 0.
Proof. discriminate. Qed.

Lemma pow2_pos (k : Z) : 0 < 2 ^ k.
Proof. apply Qpower_0_lt. reflexivity. Qed.

Lemma pow2_le (k k' : Z) : (k <= k')%Z -> 2 ^ k <= 2 ^ k'.
Proof. intros H. apply Qpower_le_compat_l; [exact H|discriminate]. Qed.

Lemma pow2_lt_inv (k k' : Z) : 2 ^ k < 2 ^ k' -> (k < k')%Z.
Proof. intros H. apply (Qpower_lt_compat_l_inv 2); [exact H|reflexivity]. Qed.

Lemma pow2_Z (k : Z) : (0 <= k)%Z -> 2 ^ k == inject_Z (2 ^ k).
Proof. intros H. rewrite Zpower_Qpower by exact H. reflexivity. Qed.

Lemma div_lt_div (n d A B : Z) :
  (0 < d)%Z -> (0 < B)%Z -> (n * B < A * d)%Z ->
  inject_Z n / inject_Z d < inject_Z A / inject_Z B.
Proof.
  intros Hd HB H.
  assert (0 < inject_Z d) as Hd' by (change 0 with (inject_Z 0); rewrite <- Zlt_Qlt; exact Hd).
  assert (0 < inject_Z B) as HB' by (change 0 with (inject_Z 0); rewrite <- Zlt_Qlt; exact HB).
  apply Qlt_shift_div_r; [exact Hd'|].
  assert (inject_Z A / inject_Z B * inject_Z d == inject_Z A * inject_Z d / inject_Z B) as ->
    by (field; intros E; rewrite E in HB'; discriminate).
  apply Qlt_shift_div_l; [exact HB'|].
  rewrite <- !inject_Z_mult, <- Zlt_Qlt. exact H.
Qed.

Lemma ilog2_spec (x : Q) : 0 < x -> 2 ^ ilog2 x <= x /\ x < 2 ^ (ilog2 x + 1).
Proof.
  intros Hx. unfold ilog2.
  destruct x as [n d]. simpl Qnum. simpl Qden.
  assert (0 < n)%Z as Hn by (unfold Qlt in Hx; simpl in Hx; lia).
  set (a := Z.log2 n). set (b := Z.log2 (Z.pos d)).
  pose proof (Z.log2_spec n Hn) as [Ha1 Ha2]. fold a in Ha1, Ha2.
  pose proof (Z.log2_spec (Z.pos d) eq_refl) as [Hb1 Hb2]. fold b in Hb1, Hb2.
  assert (0 <= a)%Z as Ha0 by apply Z.log2_nonneg.
  assert (0 <= b)%Z as Hb0 by apply Z.log2_nonneg.
  assert (0 < 2 ^ a)%Z as Hpa by (apply Z.pow_pos_nonneg; lia).
  assert (0 < 2 ^ b)%Z as Hpb by (apply Z.pow_pos_nonneg; lia).
  assert (n # d == inject_Z n / inject_Z (Z.pos d)) as Hq by apply Qmake_Qdiv.
  (* x < 2^(a-b+1) *)
  assert (n # d < 2 ^ (a - b + 1)) as Hup.
  { replace (a - b + 1)%Z with ((a + 1) - b)%Z by lia.
    rewrite Qpower_minus by exact two_neq_0.
    rewrite (pow2_Z (a + 1)), (pow2_Z b) by lia.
    rewrite Hq. apply div_lt_div; [reflexivity|exact Hpb|].
    replace (Z.succ a) with (a + 1)%Z in Ha2 by lia.
    replace (Z.succ b) with (b + 1)%Z in Hb2 by lia.
    nia. }
  (* 2^(a-b-1) <= x *)
  assert (2 ^ (a - b - 1) <= n # d) as Hlow.
  { replace (a - b - 1)%Z with (a - (b + 1))%Z by lia.
    rewrite Qpower_minus by exact two_neq_0.
    rewrite (pow2_Z a), (pow2_Z (b + 1)) by lia.
    rewrite Hq. apply Qlt_le_weak. apply div_lt_div.
    - apply Z.pow_pos_nonneg; lia.
    - reflexivity.
    - replace (Z.succ b) with (b + 1)%Z in Hb2 by lia. nia. }
  destruct (Qle_bool (2 ^ (a - b)) (n # d)) eqn:Ht.
  - apply Qle_bool_iff in Ht. split; assumption.
  - split; [exact Hlow|].
    replace (a - b - 1 + 1)%Z with (a - b)%Z by lia.
    apply Qnot_le_lt. intros Hle. apply Qle_bool_iff in Hle. congruence.
Qed.

Lemma ilog2_mono (x y : Q) : 0 < x -> x <= y -> (ilog2 x <= ilog2 y)%Z.
Proof.
  intros Hx Hxy.
  assert (0 < y) as Hy by lra.
  destruct (ilog2_spec x Hx) as [Hx1 _].
  destruct (ilog2_spec y Hy) as [_ Hy2].
  assert (2 ^ ilog2 x < 2 ^ (ilog2 y + 1)) as H by lra.
  apply pow2_lt_inv in H. lia.
Qed.

Lemma round_half_even_bounds (x : Q) :
  (Qfloor x <= round_half_even x <= Qfloor x + 1)%Z.
Proof.
  unfold round_half_even.
  destruct (Qcompare _ _); [destruct (Z.even _)| |]; lia.
Qed.

Lemma round_half_even_mono (x y : Q) : x <= y -> (round_half_even x <= round_half_even y)%Z.
Proof.
  intros Hxy.
  pose proof (Qfloor_resp_le x y Hxy) as Hf.
  pose proof (round_half_even_bounds x) as Hbx.
  pose proof (round_half_even_bounds y) as Hby.
  destruct (Z.eq_dec (Qfloor x) (Qfloor y)) as [Heq|Hne]; [|lia].
  unfold round_half_even in *. rewrite <- Heq in *.
  set (f := Qfloor x) in *.
  destruct (Qcompare (x - inject_Z f) (1 # 2)) eqn:Hcx;
    destruct (Qcompare (y - inject_Z f) (1 # 2)) eqn:Hcy;
    try (destruct (Z.even f)); try lia.
  all: try rewrite <- Qeq_alt in Hcx; try rewrite <- Qlt_alt in Hcx;
    try rewrite <- Qgt_alt in Hcx.
  all: try rewrite <- Qeq_alt in Hcy; try rewrite <- Qlt_alt in Hcy;
    try rewrite <- Qgt_alt in Hcy.
  all: exfalso; lra.
Qed.

Lemma round_half_even_ge (x : Q) (N : Z) : inject_Z N <= x -> (N <= round_half_even x)%Z.
Proof.
  intros H. pose proof (round_half_even_bounds x) as Hb.
  pose proof (Qfloor_resp_le _ _ H) as Hf. rewrite Qfloor_Z in Hf. lia.
Qed.

Lemma round_half_even_le (x : Q) (N : Z) : x <= inject_Z N -> (round_half_even x <= N)%Z.
Proof.
  intros H.
  pose proof (round_half_even_mono _ _ H) as Hm.
  assert (round_half_even (inject_Z N) = N) as HN.
  { unfold round_half_even. rewrite Qfloor_Z.
    assert (Qcompare (inject_Z N - inject_Z N) (1 # 2) = Lt) as ->; [|reflexivity].
    apply (proj1 (Qlt_alt _ _)).
    assert (inject_Z N - inject_Z N == 0) as -> by ring. reflexivity. }
  lia.
Qed.

Lemma nearest_nonneg (x : Q) : 0 <= nearest x.
Proof.
  unfold nearest. destruct (Qle_bool x 0) eqn:Hx; [lra|].
  assert (0 < x) as Hpos.
  { apply Qnot_le_lt. intros H. apply Qle_bool_iff in H. congruence. }
  set (e := (Z.max (ilog2 x) (-1022) - 52)%Z).
  pose proof (pow2_pos e) as He.
  apply Qmult_le_0_compat; [|lra].
  change 0 with (inject_Z 0). rewrite <- Zle_Qle.
  apply round_half_even_ge.
  apply Qle_shift_div_l; [exact He|].
  change (inject_Z 0) with 0. lra.
Qed.

Lemma scaled_mono (x y e : Q) : 0 < e -> x <= y -> x / e <= y / e.
Proof.
  intros He Hxy. apply Qle_shift_div_l; [exact He|].
  assert (x / e * e == x) as -> by (field; lra). exact Hxy.
Qed.

Lemma nearest_mono (x y : Q) : 0 <= x -> x <= y -> nearest x <= nearest y.
Proof.
  intros Hx Hxy. unfold nearest at 1.
  destruct (Qle_bool x 0) eqn:Hx0; [apply nearest_nonneg|].
  assert (0 < x) as Hxpos.
  { apply Qnot_le_lt. intros H. apply Qle_bool_iff in H. congruence. }
  assert (0 < y) as Hypos by lra.
  unfold nearest.
  assert (Qle_bool y 0 = false) as ->.
  { destruct (Qle_bool y 0) eqn:H; [|reflexivity]. apply Qle_bool_iff in H. lra. }
  pose proof (ilog2_mono x y Hxpos Hxy) as Hlog.
  destruct (ilog2_spec x Hxpos) as [Hx1 Hx2].
  destruct (ilog2_spec y Hypos) as [Hy1 Hy2].
  set (ex := (Z.max (ilog2 x) (-1022) - 52)%Z).
  set (ey := (Z.max (ilog2 y) (-1022) - 52)%Z).
  pose proof (pow2_pos ex) as Hex. pose proof (pow2_pos ey) as Hey.
  destruct (Z.eq_dec ex ey) as [Heq|Hne].
  - rewrite <- Heq.
    apply Qmult_le_compat_r; [|lra].
    rewrite <- Zle_Qle. apply round_half_even_mono, scaled_mono; assumption.
  - assert (ex + 1 <= ey)%Z as Hlt by lia.
    assert (ey = ilog2 y - 52)%Z as Hey' by lia.
    (* nearest x <= 2^(ex+53) <= 2^(ey+52) <= nearest y *)
    apply Qle_trans with (2 ^ (ex + 53)).
    + replace (ex + 53)%Z with (53 + ex)%Z by lia.
      rewrite Qpower_plus by exact two_neq_0.
      apply Qmult_le_compat_r; [|lra].
      rewrite (pow2_Z 53) by lia. rewrite <- Zle_Qle.
      apply round_half_even_le. rewrite <- (pow2_Z 53) by lia.
      apply Qle_shift_div_r; [exact Hex|].
      rewrite <- Qpower_plus by exact two_neq_0.
      apply Qle_trans with (2 ^ (ilog2 x + 1)); [lra|].
      apply pow2_le. lia.
    + apply Qle_trans with (2 ^ (ey + 52)); [apply pow2_le; lia|].
      replace (ey + 52)%Z with (52 + ey)%Z by lia.
      rewrite Qpower_plus by exact two_neq_0.
      apply Qmult_le_compat_r; [|lra].
      rewrite (pow2_Z 52) by lia. rewrite <- Zle_Qle.
      apply round_half_even_ge. rewrite <- (pow2_Z 52) by lia.
      apply Qle_shift_div_l; [exact Hey|].
      rewrite <- Qpower_plus by exact two_neq_0.
      replace (52 + ey)%Z with (ilog2 y) by lia. exact Hy1.
Qed.

Lemma round64_nonneg (x : Q) : 0 <= x -> nonneg (round64 x).
Proof.
  intros Hx. unfold round64.
  assert (Qle_bool 0 x = true) as -> by (now apply Qle_bool_iff).
  destruct (Qle_bool (2 ^ 1024) _); simpl; [reflexivity|].
  rewrite Qred_correct. apply nearest_nonneg.
Qed.

Lemma Qabs_nonneg_eq (x : Q) : 0 <= x -> Qabs x = x.
Proof.
  destruct x as [n d]. unfold Qle, Qabs. simpl. intros H.
  f_equal. apply Z.abs_eq. lia.
Qed.

Lemma round64_mono (x y : Q) : 0 <= x -> x <= y -> le (round64 x) (round64 y).
Proof.
  intros Hx Hxy. unfold round64.
  assert (0 <= y) as Hy by lra.
  assert (Qle_bool 0 x = true) as -> by (now apply Qle_bool_iff).
  assert (Qle_bool 0 y = true) as -> by (now apply Qle_bool_iff).
  rewrite !Qabs_nonneg_eq by assumption.
  pose proof (nearest_mono x y Hx Hxy) as Hm.
  destruct (Qle_bool (2 ^ 1024) (nearest y)) eqn:Hoy.
  - destruct (Qle_bool (2 ^ 1024) (nearest x)); simpl; exact I.
  - destruct (Qle_bool (2 ^ 1024) (nearest x)) eqn:Hox; simpl.
    + apply Qle_bool_iff in Hox.
      assert (Qle_bool (2 ^ 1024) (nearest y) = true) as E
        by (apply Qle_bool_iff; lra).
      congruence.
    + rewrite !Qred_correct. exact Hm.
Qed.

Lemma add_nonneg (a b : double) : nonneg a -> nonneg b -> nonneg (add a b).
Proof.
  destruct a as [x|s|], b as [y|t|]; simpl; try tauto.
  - intros Hx Hy. apply round64_nonneg. lra.
  - intros -> ->. reflexivity.
Qed.

Lemma div_nonneg (a : double) (n : Z) : nonneg a -> (0 < n)%Z -> nonneg (div a n).
Proof.
  destruct a as [x|s|]; simpl; try tauto.
  intros Hx Hn. apply round64_nonneg.
  apply Qle_shift_div_l.
  - change 0 with (inject_Z 0). rewrite <- Zlt_Qlt. exact Hn.
  - lra.
Qed.

(** Dividing a double that is not negative by more gives no more. *)
Lemma div_antitone (a : double) (n m : Z) :
  nonneg a -> (0 < n <= m)%Z -> le (div a m) (div a n).
Proof.
  destruct a as [x|s|]; simpl; try tauto.
  - intros Hx [Hn Hnm].
    assert (0 < inject_Z n) as Hn'
      by (change 0 with (inject_Z 0); rewrite <- Zlt_Qlt; exact Hn).
    assert (inject_Z n <= inject_Z m) as Hnm' by (rewrite <- Zle_Qle; exact Hnm).
    assert (0 < inject_Z m) as Hm' by lra.
    apply round64_mono.
    + apply Qle_shift_div_l; lra.
    + apply Qle_shift_div_l; [exact Hn'|].
      assert (x / inject_Z m * inject_Z n == x * (inject_Z n / inject_Z m)) as ->
        by (field; lra).
      assert (inject_Z n / inject_Z m <= 1) as H1
        by (apply Qle_shift_div_r; lra).
      assert (x * (inject_Z n / inject_Z m) <= x * 1) as H2
        by (apply Qmult_le_compat_nonneg; lra || (split; [apply Qle_shift_div_l; lra|lra])).
      lra.
  - intros -> _. exact I.
Qed.

End Binary64.

(* --------------------------------------------------------------------- *)
(** ** The averages of the "minimal" layout                               *)
(* --------------------------------------------------------------------- *)

Section MinimalAverages.
Import Dashboard.
Local Open Scope Q_scope.

Lemma fold_sum_shift (items : list point) (a : Q) :
  fold_left (fun sum item => sum + value item) items a == a + sum_values items.
Proof.
  unfold sum_values. revert a.
  induction items as [|p items IH]; intros a; simpl.
  - ring.
  - rewrite (IH (a + value p)), (IH (0 + value p)). ring.
Qed.

Lemma sum_values_cons (p : point) (items : list point) :
  sum_values (p :: items) == value p + sum_values items.
Proof.
  unfold sum_values at 1. simpl. rewrite fold_sum_shift. ring.
Qed.

Lemma slice_last_length {A} (n : nat) (l : list A) :
  length (slice_last n l) = Nat.min (length l) n.
Proof. unfold slice_last. rewrite length_drop. lia. Qed.

Lemma slice_last_suffix {A} (n : nat) (l : list A) :
  l = take (length l - n) l ++ slice_last n l.
Proof. unfold slice_last. now rewrite take_drop. Qed.

Lemma slice_last_short {A} (n : nat) (l : list A) :
  (length l <= n)%nat -> slice_last n l = l.
Proof.
  intros H. unfold slice_last.
  replace (length l - n)%nat with 0%nat by lia. reflexivity.
Qed.

(** The double sum of positive values is not negative. *)
Lemma double_sum_nonneg (items : list point) :
  (forall p, p ∈ items -> 0 < value p) -> nonneg (double_sum items).
Proof.
  unfold double_sum.
  assert (nonneg (IEEE.Finite 0)) as Hacc by (simpl; lra).
  revert Hacc. generalize (IEEE.Finite 0) as acc.
  induction items as [|p items IH]; intros acc Hacc Hpos; simpl; [exact Hacc|].
  apply IH.
  - apply add_nonneg; [exact Hacc|].
    apply round64_nonneg. apply Qlt_le_weak, Hpos. left.
  - intros q Hq. apply Hpos. now right.
Qed.

Lemma toFixed1_mono (x y : Q) : 0 <= x -> x <= y -> (toFixed1 x <= toFixed1 y)%Z.
Proof.
  intros Hx Hxy. unfold toFixed1.
  assert (Qle_bool 0 x = true) as -> by (now apply Qle_bool_iff).
  assert (Qle_bool 0 y = true) as -> by (apply Qle_bool_iff; lra).
  apply Qfloor_resp_le. lra.
Qed.

Lemma Math_round_mono (x y : Q) : x <= y -> (Math_round x <= Math_round y)%Z.
Proof. intros Hxy. unfold Math_round. apply Qfloor_resp_le. lra. Qed.

(** Both display roundings keep the order of doubles that are not
    negative. *)
Lemma texts_keep_order (a b : IEEE.double) :
  nonneg a -> IEEE.le a b ->
  IEEE.le (shown (toFixed1_text a)) (shown (toFixed1_text b)) /\
  IEEE.le (shown (round_text a)) (shown (round_text b)).
Proof.
  destruct a as [x|s|], b as [y|t|]; simpl; try tauto.
  - intros Hx Hxy. split.
    + pose proof (toFixed1_mono x y Hx Hxy) as H. unfold Qle. simpl. lia.
    + rewrite <- Zle_Qle. now apply Math_round_mono.
Qed.

(** C8 (counterexample). Six days of one step each: the layout shows
    [Math.round(6 / 7) = 1], which is the arithmetic mean itself, not a
    number strictly below it. *)
Lemma six_single_steps_average_not_below_mean :
  shown (avg_steps (Some six_single_steps_data)) = IEEE.Finite (inject_Z 1) /\
  mean six_single_steps == inject_Z 1 /\
  ~ inject_Z 1 < mean six_single_steps.
Proof.
  split; [vm_compute; reflexivity|]. split; [reflexivity|].
  vm_compute. discriminate.
Qed.

(** C8 (as amended). In the "minimal" layout the average sleep shown is
    the sum of the last [min(n, 7)] entries divided by the constant 7, in
    double arithmetic, and rounded to one decimal; the average steps shown
    is the same quotient rounded to the nearest integer. For a non-empty
    series of fewer than 7 positive entries, the number shown is never
    above the arithmetic mean of the entries present (their sum over their
    number) computed and displayed the same way. *)
Theorem minimal_average_divides_by_seven
  (hd : option HealthData) (sleep steps : list point) :
  series "sleep" hd = Some sleep ->
  series "steps" hd = Some steps ->
  (avg_sleep hd = toFixed1_text (IEEE.div (double_sum (slice_last 7 sleep)) 7) /\
   avg_steps hd = round_text (IEEE.div (double_sum (slice_last 7 steps)) 7)) /\
  (forall items : list point,
     length (slice_last 7 items) = Nat.min (length items) 7 /\
     items = take (length items - 7) items ++ slice_last 7 items) /\
  (forall items : list point,
     items <> [] -> (length items < 7)%nat ->
     (forall p, p ∈ items -> 0 < value p) ->
     IEEE.le (shown (toFixed1_text (double_last7_over_7 items)))
             (shown (toFixed1_text (double_mean items))) /\
     IEEE.le (shown (round_text (double_last7_over_7 items)))
             (shown (round_text (double_mean items)))).
Proof.
  intros Hsleep Hsteps.
  unfold avg_sleep, avg_steps. rewrite Hsleep, Hsteps.
  split; [split; reflexivity|].
  split; [intros items; split; [apply slice_last_length|apply slice_last_suffix]|].
  intros items Hne Hlen Hpos.
  assert (0 < length items)%nat as Hn by (destruct items; [congruence|simpl; lia]).
  pose proof (double_sum_nonneg items Hpos) as Hsum.
  unfold double_last7_over_7, double_mean. rewrite slice_last_short by lia.
  apply texts_keep_order.
  - apply div_nonneg; [exact Hsum|lia].
  - apply div_antitone; [exact Hsum|lia].
Qed.

(** C8 (witness). Three nights of 7, 6 and 8 hours: 3.0 is shown, the mean
    of the three displayed the same way is 7.0. *)
Lemma minimal_average_witness :
  series "sleep" (Some six_single_steps_data) = Some three_nights /\
  shown (avg_sleep (Some six_single_steps_data)) = IEEE.Finite (30 # 10) /\
  shown (toFixed1_text (double_mean three_nights)) = IEEE.Finite (70 # 10) /\
  IEEE.le (shown (toFixed1_text (double_last7_over_7 three_nights)))
          (shown (toFixed1_text (double_mean three_nights))).
Proof.
  split; [reflexivity|]. split; [vm_compute; reflexivity|].
  split; [vm_compute; reflexivity|].
  refine (proj1 (proj2 (proj2
            (minimal_average_divides_by_seven (Some six_single_steps_data)
               three_nights six_single_steps eq_refl eq_refl)) three_nights _ _ _)).
  - discriminate.
  - simpl. lia.
  - intros p Hp.
    repeat (apply elem_of_cons in Hp as [->|Hp]; [reflexivity|]).
    now apply elem_of_nil in Hp.
Defined.

End MinimalAverages.

(* --------------------------------------------------------------------- *)
(** ** Source prioritization                                              *)
(* --------------------------------------------------------------------- *)

Section Prioritization.
Import Unifier.

Lemma prioritize_priority (k : string) (oura_data apple_data : gmap Z Q) (d : Z) :
  prioritize k oura_data apple_data d =
  match kind_priority k with
  | Some (s1, s2) =>
      Some (py_or (data_of s1 oura_data apple_data !! d)
                  (data_of s2 oura_data apple_data !! d))
  | None => None
  end.
Proof.
  unfold prioritize, kind_priority.
  repeat case_bool_decide; reflexivity.
Qed.

(** A present value other than 0 in the first source wins. *)
Lemma prioritize_first_nonzero k s1 s2 oura_data apple_data d v :
  kind_priority k = Some (s1, s2) ->
  data_of s1 oura_data apple_data !! d = Some v ->
  Qnum v <> 0 ->
  prioritize k oura_data apple_data d = Some (Some v).
Proof.
  intros Hk Hv Hnz. rewrite prioritize_priority, Hk, Hv.
  unfold py_or, truthy. destruct (Z.eqb_spec (Qnum v) 0); [contradiction|reflexivity].
Qed.

(** Without a value in the first source, the second source decides. *)
Lemma prioritize_second k s1 s2 oura_data apple_data d :
  kind_priority k = Some (s1, s2) ->
  data_of s1 oura_data apple_data !! d = None ->
  prioritize k oura_data apple_data d = Some (data_of s2 oura_data apple_data !! d).
Proof.
  intros Hk Hv. rewrite prioritize_priority, Hk, Hv. reflexivity.
Qed.

Lemma elem_of_merge_series k oura_data apple_data d v :
  (d, v) ∈ merge_series k oura_data apple_data <->
  prioritize k oura_data apple_data d = Some (Some v) /\
  (is_Some (oura_data !! d) \/ is_Some (apple_data !! d)).
Proof.
  unfold merge_series. rewrite list_elem_of_omap. split.
  - intros (d' & Hin & Hsel).
    destruct (prioritize k oura_data apple_data d') as [[v'|]|] eqn:Hp; try discriminate.
    injection Hsel as -> ->. split; [exact Hp|].
    rewrite merge_sort_Permutation in Hin.
    apply elem_of_elements, elem_of_union in Hin.
    rewrite !elem_of_dom in Hin. exact Hin.
  - intros [Hp Hdom]. exists d. split.
    + rewrite merge_sort_Permutation. apply elem_of_elements, elem_of_union.
      rewrite !elem_of_dom. exact Hdom.
    + now rewrite Hp.
Qed.

(** A date no source has a value for is absent from the unified series. *)
Lemma merge_series_absent k oura_data apple_data d :
  oura_data !! d = None -> apple_data !! d = None ->
  forall v : Q, (d, v) ∉ merge_series k oura_data apple_data.
Proof.
  intros Ho Ha v Hin.
  apply elem_of_merge_series in Hin as [_ [[? H]|[? H]]]; congruence.
Qed.

(** C2 (evaluation at the failing input). For sleep, when the first source
    (Oura) holds the present value 0 for a date, [oura_data.get(date) or
    apple_data.get(date)] passes over it: the value of Apple is selected
    when there is one, and otherwise no value at all, so the date drops
    out of the unified series although a source has a value for it. *)
Theorem zero_reading_loses_priority (d : Z) (v : Q) :
  prioritize "sleep" {[ d := 0%Q ]} {[ d := v ]} d = Some (Some v) /\
  prioritize "sleep" {[ d := 0%Q ]} ∅ d = Some None /\
  merge_series "sleep" {[ d := 0%Q ]} ∅ = [].
Proof.
  unfold merge_series, prioritize. simpl.
  rewrite !lookup_singleton_eq, lookup_empty. simpl.
  split; [reflexivity|]. split; [reflexivity|].
  rewrite dom_singleton_L, dom_empty_L, union_empty_r_L, elements_singleton.
  simpl. rewrite lookup_singleton_eq. reflexivity.
Qed.

End Prioritization.

(* --------------------------------------------------------------------- *)
(** ** [unify] is a function of the collection of readings                *)
(* --------------------------------------------------------------------- *)

Section Determinism.
Import Unifier.

Lemma selected_dates_NoDup src k (readings : list reading) :
  NoDup (reading_key <$> readings) ->
  NoDup ((omap (select_reading src k) readings).*1).
Proof.
  induction readings as [|r readings IH]; intros Hnd; simpl.
  - constructor.
  - rewrite fmap_cons in Hnd. apply NoDup_cons in Hnd as [Hnotin Hnd].
    unfold select_reading at 1. case_bool_decide as Hsel; [|auto].
    destruct Hsel as [Hsrc Hkind].
    rewrite fmap_cons. apply NoDup_cons. split; [|auto].
    intros Hin. apply Hnotin.
    apply list_elem_of_fmap in Hin as ([d v] & Hd & Hin). simpl in Hd. subst d.
    apply list_elem_of_omap in Hin as (r' & Hr' & Hsel').
    unfold select_reading in Hsel'. case_bool_decide as Hsel2; [|discriminate].
    destruct Hsel2 as [Hsrc' Hkind']. injection Hsel' as Hdate _.
    apply list_elem_of_fmap. exists r'. split; [|exact Hr'].
    unfold reading_key. congruence.
Qed.

Lemma source_data_Permutation src k (r1 r2 : list reading) :
  NoDup (reading_key <$> r1) -> r1 ≡ₚ r2 ->
  source_data src k r1 = source_data src k r2.
Proof.
  intros Hnd Hperm. unfold source_data.
  apply list_to_map_proper.
  - apply (selected_dates_NoDup src k r1 Hnd).
  - now rewrite Hperm.
Qed.

(** The dates of a unified series are listed in increasing order. *)
Lemma merge_series_sorted k (oura_data apple_data : gmap Z Q) :
  Sorted Z.le ((merge_series k oura_data apple_data).*1).
Proof.
  unfold merge_series.
  pose proof (Sorted_merge_sort Z.le (elements (dom oura_data ∪ dom apple_data))) as H.
  apply Sorted_StronglySorted in H; [|intros ???; lia].
  apply StronglySorted_Sorted.
  induction H as [|d l Hl IH Hall]; simpl; [constructor|].
  destruct (prioritize k oura_data apple_data d) as [[v|]|]; simpl; try exact IH.
  constructor; [exact IH|].
  rewrite list.Forall_forall in Hall. apply list.Forall_forall.
  intros d' Hin. apply list_elem_of_fmap in Hin as ([d'' v'] & -> & Hin).
  apply list_elem_of_omap in Hin as (x & Hx & Hsel).
  destruct (prioritize k oura_data apple_data x) as [[w|]|]; try discriminate.
  injection Hsel as -> ->. apply Hall, Hx.
Qed.

(** C4. Running [unify] on identical raw inputs yields identical unified
    datasets: the result is the same for the same list of readings, and
    for the same well-formed collection of readings listed in any order. *)
Theorem unify_deterministic (user : string) (r1 r2 : list reading) :
  same_readings r1 r2 -> unify user r1 = unify user r2.
Proof.
  intros [->|[Hnd Hperm]]; [reflexivity|].
  unfold unify. apply map_ext. intros k.
  now rewrite (source_data_Permutation oura k r1 r2),
              (source_data_Permutation apple k r1 r2).
Qed.

(** C4 (witness). Three readings, listed in two orders. *)
Lemma unify_witness :
  same_readings [night_oura; night_apple; walk_apple] [walk_apple; night_oura; night_apple] /\
  unify "demo_user" [night_oura; night_apple; walk_apple] =
    unify "demo_user" [walk_apple; night_oura; night_apple].
Proof.
  assert (same_readings [night_oura; night_apple; walk_apple]
                        [walk_apple; night_oura; night_apple]) as H.
  { right. split.
    - repeat (apply NoDup_cons; split;
              [intros Hin;
               repeat (apply elem_of_cons in Hin as [Hin|Hin]; [discriminate Hin|]);
               now apply elem_of_nil in Hin|]).
      apply NoDup_nil_2.
    - symmetry. apply (Permutation_cons_append [night_oura; night_apple] walk_apple). }
  split; [exact H|].
  exact (unify_deterministic "demo_user" _ _ H).
Defined.

End Determinism.

(* --------------------------------------------------------------------- *)
(** ** Anomaly warnings and run lengths                                   *)
(* --------------------------------------------------------------------- *)

Section Runs.
Import Anomaly.

Section AnyNumbers.
Context {number : Type}.
Variable gt : number -> number -> bool.

Lemma leading_run_ge (k : nat) (threshold : number) (days : list number) :
  (k <= leading_run number gt threshold days)%nat <->
  exists run after, days = run ++ after /\ length run = k /\
                    Forall (fun v => gt v threshold = true) run.
Proof.
  revert k. induction days as [|v rest IH]; intros k; simpl.
  - split.
    + intros Hk. exists [], []. repeat split; [simpl; lia|constructor].
    + intros (run & after & Heq & Hlen & _).
      symmetry in Heq. apply app_eq_nil in Heq as [-> _]. simpl in Hlen. lia.
  - unfold above. destruct (gt v threshold) eqn:Hv.
    + split.
      * intros Hk. destruct k as [|k].
        { exists [], (v :: rest). repeat split. constructor. }
        apply Nat.succ_le_mono, IH in Hk as (run & after & -> & Hlen & Hall).
        exists (v :: run), after. repeat split; [simpl; lia|].
        constructor; [exact Hv|exact Hall].
      * intros (run & after & Heq & Hlen & Hall).
        destruct run as [|v' run]; [simpl in Hlen; lia|].
        simpl in Heq. injection Heq as <- ->. simpl in Hlen. subst k.
        apply -> Nat.succ_le_mono. apply IH. exists run, after.
        repeat split. now inversion Hall.
    + split.
      * intros Hk. exists [], (v :: rest). repeat split; [simpl; lia|constructor].
      * intros (run & after & Heq & Hlen & Hall).
        destruct run as [|v' run]; [simpl in Hlen; lia|].
        simpl in Heq. injection Heq as <- ->.
        inversion Hall as [|? ? Hgt _]; subst. congruence.
Qed.

(** The modelled count is at least [k] exactly when the series holds [k]
    consecutive elevated days. *)
Lemma longest_run_ge (k : nat) (threshold : number) (days : list number) :
  (k <= longest_run_above number gt days threshold)%nat <-> has_run gt k threshold days.
Proof.
  unfold has_run. induction days as [|v rest IH].
  - simpl. split.
    + intros Hk. exists [], [], []. repeat split; [simpl; lia|constructor].
    + intros (before & run & after & Heq & Hlen & _).
      symmetry in Heq. apply app_eq_nil in Heq as [_ Heq].
      apply app_eq_nil in Heq as [-> _]. simpl in Hlen. lia.
  - change (longest_run_above number gt (v :: rest) threshold)
      with (Nat.max (leading_run number gt threshold (v :: rest))
                    (longest_run_above number gt rest threshold)).
    rewrite Nat.max_le_iff, leading_run_ge, IH. split.
    + intros [(run & after & Heq & Hlen & Hall)|(before & run & after & Heq & Hlen & Hall)].
      * exists [], run, after. auto.
      * exists (v :: before), run, after. rewrite Heq. auto.
    + intros (before & run & after & Heq & Hlen & Hall).
      destruct before as [|v' before].
      * left. exists run, after. auto.
      * right. simpl in Heq. injection Heq as <- ->. exists before, run, after. auto.
Qed.

(** Days that are not above the threshold make no run. *)
Lemma longest_run_none (threshold : number) (days : list number) :
  Forall (fun v => gt v threshold = false) days ->
  longest_run_above number gt days threshold = 0%nat.
Proof.
  induction 1 as [|v rest Hv _ IH]; [reflexivity|].
  simpl. unfold above. now rewrite Hv, IH.
Qed.

End AnyNumbers.

(** Whatever the counting helper is, a call with its data bound ends
    without a warning exactly when the count the helper returns is below
    3; from 3 on the warning branch is entered, where the excerpt reads
    [consecutive_days]. *)
Lemma detect_iff_count_reaches_three {number : Type}
  (add mul : number -> number -> number) (of_int : Z -> number)
  (calculate_personal_baseline : list number -> number)
  (count_consecutive_above_threshold : list number -> number -> nat)
  (history recent : list number) (deviation : number)
  (consecutive_days : option string)
  (sleep_data activity_data readiness_data : list number) :
  let n := count_consecutive_above_threshold recent
             (add (calculate_personal_baseline history) (mul (of_int 2) deviation)) in
  detect_health_anomalies number add mul of_int calculate_personal_baseline
    count_consecutive_above_threshold (Some history) (Some recent) (Some deviation)
    consecutive_days sleep_data activity_data readiness_data =
  if (3 <=? n)%nat
  then match consecutive_days with
       | None => NameError "consecutive_days"
       | Some days =>
           ReturnsNone
             [ {| title := "Elevated Resting Heart Rate";
                  message := String.app "Elevated for "
                               (String.app days " consecutive days");
                  context := "Previously correlated with stress or early illness";
                  recommendation := "Consider rest and monitor symptoms" |} ]
       end
  else ReturnsNone [].
Proof. reflexivity. Qed.

(** C3 (counterexample). Three consecutive days below baseline - 2 x
    stddev are a deviation run of length 3 beyond the band, and the call
    ends without a warning: the excerpt counts elevations only. *)
Lemma three_low_days_give_no_warning :
  has_deviation_run 3 60 2 [61; 50; 49; 48; 60] /\
  detect_resting [61; 50; 49; 48; 60] = ReturnsNone [].
Proof.
  split; [|reflexivity].
  exists [61], [50; 49; 48], [60]. repeat split. repeat constructor.
Qed.

(** C3 (as amended). With its data bound, the excerpt decides on
    elevations only and with the constant 3: a call ends without a warning
    if and only if the run of consecutive days above baseline + 2 x stddev
    that the counting helper reports is shorter than 3; with the run
    counted as the longest run of such days, the warning branch is entered
    exactly when the recent series holds 3 consecutive elevated days. A
    longest run of 2 gives no warning, a longest run of 3 enters the
    branch, and days that do not exceed the upper threshold (those below
    baseline - 2 x stddev among them) never count. The baseline is any
    value the (absent) baseline helper returns. *)
Theorem warning_iff_run_of_three {number : Type}
  (add mul : number -> number -> number) (of_int : Z -> number)
  (gt : number -> number -> bool)
  (calculate_personal_baseline : list number -> number)
  (history recent : list number) (deviation : number)
  (consecutive_days : option string)
  (sleep_data activity_data readiness_data : list number) :
  let threshold := add (calculate_personal_baseline history) (mul (of_int 2) deviation) in
  let detect := fun count_consecutive_above_threshold =>
    detect_health_anomalies number add mul of_int calculate_personal_baseline
      count_consecutive_above_threshold (Some history) (Some recent) (Some deviation)
      consecutive_days sleep_data activity_data readiness_data in
  (forall count_consecutive_above_threshold,
     detect count_consecutive_above_threshold = ReturnsNone [] <->
     (count_consecutive_above_threshold recent threshold < 3)%nat) /\
  (detect (longest_run_above number gt) <> ReturnsNone [] <->
   has_run gt 3 threshold recent) /\
  (longest_run_above number gt recent threshold = 2%nat ->
   detect (longest_run_above number gt) = ReturnsNone []) /\
  (longest_run_above number gt recent threshold = 3%nat ->
   detect (longest_run_above number gt) <> ReturnsNone []) /\
  (Forall (fun v => gt v threshold = false) recent ->
   detect (longest_run_above number gt) = ReturnsNone []).
Proof.
  intros threshold detect.
  assert (forall count, detect count = ReturnsNone [] <-> (count recent threshold < 3)%nat)
    as Hdecide.
  { intros count. subst detect. cbv beta.
    rewrite detect_iff_count_reaches_three. cbv zeta. fold threshold.
    destruct (Nat.leb_spec 3 (count recent threshold)) as [H|H].
    - split; [|lia]. destruct consecutive_days; discriminate.
    - split; [intros _; exact H|reflexivity]. }
  split; [exact Hdecide|].
  split; [|split; [|split]].
  - rewrite Hdecide, <- longest_run_ge. lia.
  - intros H. apply Hdecide. lia.
  - intros H. rewrite Hdecide. lia.
  - intros H. apply Hdecide. rewrite (longest_run_none gt threshold recent H). lia.
Qed.

Lemma two_elevated_days_give_no_warning :
  longest_run_above Z Z.gtb [61; 66; 67; 60; 62] 64 = 2%nat /\
  detect_resting [61; 66; 67; 60; 62] = ReturnsNone [].
Proof. split; reflexivity. Qed.

(** Three elevated days enter the warning branch, where the unbound
    [consecutive_days] stops the call. *)
Lemma three_elevated_days_enter_the_warning_branch :
  longest_run_above Z Z.gtb [61; 66; 67; 68; 62] 64 = 3%nat /\
  detect_resting [61; 66; 67; 68; 62] = NameError "consecutive_days".
Proof. split; reflexivity. Qed.

End Runs.

(* --------------------------------------------------------------------- *)
(** ** Constant series and the correlation engine                         *)
(* --------------------------------------------------------------------- *)

Section ConstantSeries.
Import Correlation.
Local Open Scope Q_scope.

Lemma count_cons (p : Q * Q) (pairs : list (Q * Q)) :
  count (p :: pairs) == count pairs + 1.
Proof.
  unfold count. cbn [length].
  rewrite Nat2Z.inj_succ, <- Z.add_1_r, inject_Z_plus. reflexivity.
Qed.

Lemma total_constant (f : Q * Q -> Q) (pairs : list (Q * Q)) (c : Q) :
  (forall p, p ∈ pairs -> f p == c) -> total f pairs == count pairs * c.
Proof.
  induction pairs as [|p pairs IH]; intros H.
  - unfold total, count. simpl. ring.
  - rewrite count_cons. unfold total in *. cbn [foldr].
    rewrite IH by (intros q Hq; apply H; now right).
    rewrite (H p) by (left). ring.
Qed.

Lemma spread_constant (f : Q * Q -> Q) (pairs : list (Q * Q)) (c : Q) :
  (forall p, p ∈ pairs -> f p == c) -> spread f pairs == 0.
Proof.
  intros H. unfold spread.
  rewrite (total_constant f pairs c H).
  rewrite (total_constant (fun p => f p * f p) pairs (c * c)).
  - ring.
  - intros p Hp. rewrite (H p Hp). reflexivity.
Qed.

Lemma square_nonneg (y : Q) : 0 <= y * y.
Proof. unfold Qle, Qmult. simpl. nia. Qed.

Lemma sum_nonneg (a b : Q) : 0 <= a -> 0 <= b -> 0 <= a + b.
Proof. intros. lra. Qed.

Lemma shifted_squares_nonneg (f : Q * Q -> Q) (a : Q) (pairs : list (Q * Q)) :
  0 <= total (fun p => f p * f p) pairs - 2 * a * total f pairs + count pairs * (a * a).
Proof.
  induction pairs as [|p pairs IH].
  - unfold total, count. cbn [foldr length]. change (inject_Z (Z.of_nat 0)) with 0.
    assert (0 - 2 * a * 0 + 0 * (a * a) == 0) as -> by ring. apply Qle_refl.
  - rewrite count_cons. unfold total in *. cbn [foldr].
    set (T := foldr (fun p acc => f p * f p + acc) 0 pairs) in *.
    set (S := foldr (fun p acc => f p + acc) 0 pairs) in *.
    assert (f p * f p + T - 2 * a * (f p + S) + (count pairs + 1) * (a * a)
            == (T - 2 * a * S + count pairs * (a * a)) + (f p - a) * (f p - a)) as ->
      by ring.
    apply sum_nonneg; [exact IH|apply square_nonneg].
Qed.

(** A spread is a sum of squared differences: it is never negative. *)
Lemma spread_nonneg (f : Q * Q -> Q) (pairs : list (Q * Q)) : 0 <= spread f pairs.
Proof.
  unfold spread. induction pairs as [|p pairs IH].
  - unfold total, count. cbn [foldr length]. change (inject_Z (Z.of_nat 0)) with 0.
    assert (0 * 0 - 0 * 0 == 0) as -> by ring. apply Qle_refl.
  - rewrite count_cons.
    pose proof (shifted_squares_nonneg f (f p) pairs) as Hsq.
    unfold total in *. cbn [foldr].
    set (T := foldr (fun p acc => f p * f p + acc) 0 pairs) in *.
    set (S := foldr (fun p acc => f p + acc) 0 pairs) in *.
    assert ((count pairs + 1) * (f p * f p + T) - (f p + S) * (f p + S)
            == (count pairs * T - S * S)
               + (T - 2 * f p * S + count pairs * (f p * f p))) as -> by ring.
    apply sum_nonneg; assumption.
Qed.

Lemma elem_of_align (lag : Z) (s1 s2 : series) (x y : Q) :
  (x, y) ∈ align lag s1 s2 ->
  exists d, s1 !! d = Some x /\ s2 !! (d + lag)%Z = Some y.
Proof.
  unfold align. intros Hin.
  apply list_elem_of_omap in Hin as ([d x'] & Hd & Hsel).
  apply elem_of_map_to_list in Hd.
  destruct (s2 !! (d + lag)%Z) as [y'|] eqn:Hy; [|discriminate].
  injection Hsel as -> ->. eauto.
Qed.

Lemma elem_of_pairings {A} (l : list A) (x y : A) :
  (x, y) ∈ pairings l -> x ∈ l /\ y ∈ l.
Proof.
  induction l as [|a l IH]; simpl; intros H.
  - now apply elem_of_nil in H.
  - apply elem_of_app in H as [H|H].
    + apply list_elem_of_fmap in H as (b & [= -> ->] & Hb). split; [left|now right].
    + apply IH in H as [? ?]. split; now right.
Qed.

Lemma elem_of_insert_ranked i j ranked :
  i ∈ insert_ranked j ranked -> i = j \/ i ∈ ranked.
Proof.
  induction ranked as [|k ranked IH]; simpl; intros H.
  - apply list_elem_of_singleton in H. now left.
  - destruct (ranks_before j k).
    + apply elem_of_cons in H as [->|H]; auto.
    + apply elem_of_cons in H as [->|H]; [right; left|].
      apply IH in H as [->|H]; [now left|right; now right].
Qed.

Lemma elem_of_rank i l : i ∈ rank l -> i ∈ l.
Proof.
  induction l as [|j l IH]; simpl; intros H; [exact H|].
  apply elem_of_insert_ranked in H as [->|H]; [left|right; auto].
Qed.

End ConstantSeries.

Section ConstantSeriesEngine.
Import Correlation.
Local Open Scope Q_scope.

(** The engine's parameters; the square root is positive on the positive
    numbers. *)
Variable sqrtQ : Q -> Q.
Variable confidence_of : nat -> Q -> Q.
Variable top_k : nat.
Hypothesis sqrtQ_positive : forall x, 0 < x -> 0 < sqrtQ x.

Lemma correlate_constant_left lag s1 s2 c :
  constant s1 c -> correlate sqrtQ (align lag s1 s2) = Undefined_correlation.
Proof.
  intros Hc. unfold correlate.
  assert (Qeq_bool (spread_x (align lag s1 s2)) 0 = true) as ->; [|reflexivity].
  apply Qeq_bool_iff, (spread_constant fst _ c).
  intros [x y] Hp. apply elem_of_align in Hp as (d & Hx & _). exact (Hc d x Hx).
Qed.

Lemma correlate_constant_right lag s1 s2 c :
  constant s2 c -> correlate sqrtQ (align lag s1 s2) = Undefined_correlation.
Proof.
  intros Hc. unfold correlate.
  assert (Qeq_bool (spread_y (align lag s1 s2)) 0 = true) as ->;
    [|now rewrite orb_true_r].
  apply Qeq_bool_iff, (spread_constant snd _ c).
  intros [x y] Hp. apply elem_of_align in Hp as (d & _ & Hy). exact (Hc _ y Hy).
Qed.

Lemma insight_of_kinds lag k1 s1 k2 s2 i :
  insight_of sqrtQ confidence_of lag k1 s1 k2 s2 = Some i ->
  first_kind i = k1 /\ second_kind i = k2 /\
  exists r, correlate sqrtQ (align (if lag then 1%Z else 0%Z) s1 s2) = Coefficient r.
Proof.
  unfold insight_of.
  destruct (_ <? _)%nat; [discriminate|].
  destruct (correlate _ _) as [|r|] eqn:Hc; try discriminate.
  intros [= <-]. simpl. eauto.
Qed.

Lemma candidate_origin (dataset : gmap string series) (i : Insight) :
  i ∈ candidates sqrtQ confidence_of dataset ->
  exists lag k1 s1 k2 s2,
    dataset !! k1 = Some s1 /\ dataset !! k2 = Some s2 /\
    insight_of sqrtQ confidence_of lag k1 s1 k2 s2 = Some i.
Proof.
  unfold candidates. intros H.
  apply list_elem_of_In, in_flat_map in H as ([[k1 s1] [k2 s2]] & Hpair & Hin).
  apply list_elem_of_In, elem_of_pairings in Hpair as [H1 H2].
  apply elem_of_map_to_list in H1, H2.
  apply list_elem_of_In, list_elem_of_omap in Hin as (o & Ho & Hid).
  unfold id in Hid. subst o.
  repeat (apply elem_of_cons in Ho as [Ho|Ho]; [symmetry in Ho; eauto 10|]).
  now apply elem_of_nil in Ho.
Qed.

(** The guarded division never fails. *)
Lemma correlate_never_divides_by_zero (pairs : list (Q * Q)) :
  correlate sqrtQ pairs <> DivisionError.
Proof.
  unfold correlate.
  destruct (Qeq_bool (spread_x pairs) 0) eqn:Hx; [discriminate|].
  destruct (Qeq_bool (spread_y pairs) 0) eqn:Hy; [discriminate|]. simpl.
  apply Qeq_bool_neq in Hx, Hy.
  pose proof (spread_nonneg fst pairs) as Hx0. fold (spread_x pairs) in Hx0.
  pose proof (spread_nonneg snd pairs) as Hy0. fold (spread_y pairs) in Hy0.
  assert (0 < sqrtQ (spread_x pairs)) as Hsx.
  { apply sqrtQ_positive.
    destruct (Qlt_le_dec 0 (spread_x pairs)) as [|Hle]; [assumption|].
    exfalso. apply Hx. lra. }
  assert (0 < sqrtQ (spread_y pairs)) as Hsy.
  { apply sqrtQ_positive.
    destruct (Qlt_le_dec 0 (spread_y pairs)) as [|Hle]; [assumption|].
    exfalso. apply Hy. lra. }
  unfold divide.
  destruct (Qeq_bool (sqrtQ (spread_x pairs) * sqrtQ (spread_y pairs)) 0) eqn:Hd;
    [|discriminate].
  apply Qeq_bool_iff in Hd.
  pose proof (Qmult_lt_0_compat _ _ Hsx Hsy) as Hpos.
  rewrite Hd in Hpos. exfalso. exact (Qlt_irrefl 0 Hpos).
Qed.

(** C5. For a dataset that holds a constant-valued series under kind [k],
    no insight of [analyze] references [k]: the correlation of that series
    with any other, direct or lagged, is undefined and excluded; and the
    division behind a coefficient is guarded, so it never fails. *)
Theorem constant_series_never_correlated
  (user : string) (dataset : gmap string series) (k : string) (s : series) (c : Q) :
  dataset !! k = Some s ->
  constant s c ->
  (forall i, i ∈ insights sqrtQ confidence_of top_k user dataset ->
             first_kind i <> k /\ second_kind i <> k) /\
  (forall lag other,
     correlate sqrtQ (align lag s other) = Undefined_correlation /\
     correlate sqrtQ (align lag other s) = Undefined_correlation) /\
  (forall pairs, correlate sqrtQ pairs <> DivisionError).
Proof.
  intros Hk Hconst. split; [|split].
  - intros i Hi. unfold insights in Hi.
    apply elem_of_take in Hi as (n & Hi%list_elem_of_lookup_2 & _).
    apply elem_of_rank, candidate_origin in Hi
      as (lag & k1 & s1 & k2 & s2 & H1 & H2 & Hins).
    apply insight_of_kinds in Hins as (-> & -> & r & Hr).
    split; intros ->.
    + assert (s1 = s) as -> by congruence.
      rewrite (correlate_constant_left _ _ _ c Hconst) in Hr. discriminate.
    + assert (s2 = s) as -> by congruence.
      rewrite (correlate_constant_right _ _ _ c Hconst) in Hr. discriminate.
  - intros lag other. split.
    + apply (correlate_constant_left _ _ _ c Hconst).
    + apply (correlate_constant_right _ _ _ c Hconst).
  - apply correlate_never_divides_by_zero.
Qed.

End ConstantSeriesEngine.

Section ConstantSeriesExample.
Import Correlation.
Local Open Scope Q_scope.

Lemma sqrt_up_positive (x : Q) : 0 < x -> 0 < sqrt_up x.
Proof.
  unfold sqrt_up, Qlt. simpl. intros H.
  rewrite Z.mul_1_r in *.
  assert (0 < Qnum x * Z.pos (Qden x))%Z as Hp by lia.
  apply Z.sqrt_up_pos in Hp. lia.
Qed.

(** The week yields insights, all between sleep and steps. *)
Lemma week_dataset_insights :
  map (fun i => (first_kind i, second_kind i, lagged i))
      (insights sqrt_up capped_confidence 5 "demo_user" week_dataset)
  = [ ("sleep", "steps", false); ("steps", "sleep", true); ("sleep", "steps", true) ]%string.
Proof. vm_compute. reflexivity. Qed.

(** C5 (witness). A week of sleep and steps with a steady heart rate of
    60: no insight mentions the heart rate. *)
Lemma constant_series_witness :
  week_dataset !! "heart_rate"%string = Some steady_heart_rate /\
  (forall i, i ∈ insights sqrt_up capped_confidence 5 "demo_user" week_dataset ->
             first_kind i <> "heart_rate"%string /\ second_kind i <> "heart_rate"%string).
Proof.
  split; [reflexivity|].
  refine (proj1 (constant_series_never_correlated sqrt_up capped_confidence 5
                   sqrt_up_positive "demo_user" week_dataset "heart_rate"
                   steady_heart_rate 60 eq_refl _)).
  intros d v Hv. unfold steady_heart_rate in Hv.
  rewrite lookup_fmap in Hv.
  destruct (week_of_sleep !! d); simpl in Hv; [|discriminate].
  injection Hv as <-. reflexivity.
Defined.

End ConstantSeriesExample.

(* --------------------------------------------------------------------- *)
(** ** Blank questions                                                    *)
(* --------------------------------------------------------------------- *)

Section BlankQuestions.
Import Dashboard.

Lemma trimStart_all_white_space (s : string) :
  all_white_space (trimStart s) = all_white_space s.
Proof.
  induction s as [|c s IH]; simpl; [reflexivity|].
  destruct (is_white_space c) eqn:Hc; simpl; [exact IH|now rewrite Hc].
Qed.

Lemma trimStart_empty (s : string) :
  trimStart s = EmptyString <-> all_white_space s = true.
Proof.
  induction s as [|c s IH]; simpl; [tauto|].
  destruct (is_white_space c); simpl; [exact IH|]. split; discriminate.
Qed.

Lemma rev_app_all_white_space (s acc : string) :
  all_white_space (String.rev_app s acc) = all_white_space s && all_white_space acc.
Proof.
  revert acc. induction s as [|c s IH]; intros acc; simpl; [reflexivity|].
  rewrite IH. simpl. destruct (is_white_space c), (all_white_space s); reflexivity.
Qed.

Lemma rev_app_length (s acc : string) :
  String.length (String.rev_app s acc) = (String.length s + String.length acc)%nat.
Proof.
  revert acc. induction s as [|c s IH]; intros acc; simpl; [reflexivity|].
  rewrite IH. simpl. lia.
Qed.

Lemma rev_empty (s : string) : String.rev s = EmptyString <-> s = EmptyString.
Proof.
  split; [|intros ->; reflexivity].
  intros H. pose proof (rev_app_length s EmptyString) as Hl.
  fold (String.rev s) in Hl. rewrite H in Hl. simpl in Hl.
  destruct s; [reflexivity|simpl in Hl; lia].
Qed.

(** [!s.trim()] holds exactly for the strings of white space only. *)
Lemma trim_blank_iff (s : string) : str_truthy (trim s) = negb (all_white_space s).
Proof.
  unfold str_truthy. f_equal.
  destruct (all_white_space s) eqn:Hs.
  - apply bool_decide_eq_true. unfold trim, trimEnd.
    apply trimStart_empty in Hs. rewrite Hs. reflexivity.
  - apply bool_decide_eq_false. unfold trim, trimEnd. intros H.
    apply rev_empty, trimStart_empty in H.
    unfold String.rev in H. rewrite rev_app_all_white_space in H.
    rewrite trimStart_all_white_space, Hs in H. discriminate.
Qed.

Lemma sendChatMessage_noop_iff (text : string) (backend : completion JS.value) (st : state) :
  snd (sendChatMessage text backend st) = st <->
  negb (str_truthy (trim text)) || isLoadingChat st = true.
Proof.
  rewrite sendChatMessage_result.
  destruct (negb (str_truthy (trim text)) || isLoadingChat st).
  - split; reflexivity.
  - split; [|discriminate]. intros H.
    destruct (chat_reply backend); simpl in H;
      apply (f_equal (fun s => length (chatMessages s))) in H; simpl in H;
      rewrite length_app in H; simpl in H; lia.
Qed.

(** X1. The dashboard chat ignores exactly the blank questions: when no
    request is loading, [sendChatMessage(text)] leaves the state untouched
    if and only if [text] consists of white space only (the empty string
    included); while a request is loading it ignores every question. Each
    of the four "Try asking" questions passes the guard. *)
Theorem chat_ignores_exactly_blank_questions :
  (forall text backend st,
     snd (sendChatMessage text backend st) = st <->
     all_white_space text = true \/ isLoadingChat st = true) /\
  (forall question, question ∈ sample_questions -> all_white_space question = false).
Proof.
  split.
  - intros text backend st.
    rewrite sendChatMessage_noop_iff, trim_blank_iff, negb_involutive, orb_true_iff.
    reflexivity.
  - intros question Hin. unfold sample_questions in Hin.
    repeat (apply elem_of_cons in Hin as [->|Hin]; [reflexivity|]).
    now apply elem_of_nil in Hin.
Qed.

(** X2. The "Ask AI" button is disabled exactly when pressing it would do
    nothing: its [disabled] attribute holds if and only if
    [sendChatMessage(chatInput)] returns at its guard, whatever the backend
    would answer. *)
Theorem ask_button_disabled_iff_send_is_ignored (backend : completion JS.value)
  (st : state) :
  askButton_disabled st = true <->
  snd (sendChatMessage (chatInput st) backend st) = st.
Proof.
  rewrite sendChatMessage_noop_iff. unfold askButton_disabled.
  now rewrite orb_comm.
Qed.

End BlankQuestions.

(* --------------------------------------------------------------------- *)
(** ** Quick training and the dashboard session                           *)
(* --------------------------------------------------------------------- *)

Section DashboardSession.
Import Dashboard.

(** The state a quick training leaves, in closed form. *)
Lemma quickTrainAI_result (nts : Q -> string) (backend : completion JS.value) (st : state) :
  quickTrainAI nts backend st =
  (Normal tt,
   {| healthData := healthData st; dataSource := dataSource st;
      currentDayIndex := currentDayIndex st; uiStyle := uiStyle st;
      chatMessages := chatMessages st ++ [train_reply nts backend];
      chatInput := chatInput st; isLoadingChat := isLoadingChat st;
      isTrainingAI := false;
      aiTrained := quick_train_succeeded backend || aiTrained st |}).
Proof.
  unfold quickTrainAI.
  destruct backend as [result|e]; [destruct result|];
    cbv [mbind action_bind bind lift try_catch finally modify get train_reply
         quick_train_succeeded setIsTrainingAI setAiTrained setChatMessages push]; cbn;
    try reflexivity.
  destruct (strict_eq_str (default Undefined (fields !! "status")) "trained"); reflexivity.
Qed.

Lemma answered_app (l1 l2 : list chat_message) :
  answered l1 = true -> answered l2 = true -> answered (l1 ++ l2) = true.
Proof.
  intros H1 H2. induction l1 as [|m l1 IH]; [exact H2|].
  simpl in *. destruct (type m).
  - destruct l1 as [|r l1]; [discriminate|].
    simpl in *. destruct (type r); [discriminate|]. auto.
  - auto.
Qed.

Lemma chat_reply_is_ai (backend : completion JS.value) (reply : chat_message) :
  chat_reply backend = Normal reply -> type reply = ai.
Proof.
  destruct backend as [data|e]; [|intros [= <-]; reflexivity].
  destruct data; simpl; intros [= <-]; reflexivity.
Qed.

Lemma train_reply_is_ai (nts : Q -> string) (backend : completion JS.value) :
  type (train_reply nts backend) = ai /\ confidence (train_reply nts backend) = Undefined.
Proof.
  destruct backend as [result|e]; [|split; reflexivity].
  unfold train_reply. destruct (get result "status") as [status|]; [|split; reflexivity].
  destruct (strict_eq_str status "trained"); split; reflexivity.
Qed.

Lemma handle_fields (st : state) (e : event) :
  chatMessages (handle st e) = chatMessages st /\
  isLoadingChat (handle st e) = isLoadingChat st /\
  isTrainingAI (handle st e) = isTrainingAI st /\
  aiTrained (handle st e) = aiTrained st /\
  chatInput (handle st e) = chatInput st.
Proof. destruct e; repeat split; reflexivity. Qed.

(** A page that is still mounted is in the state the handlers left. *)
Lemma mounted_interact_interact (nts : Q -> string) (st st' : state) (i : interaction) :
  mounted_interact nts st i = Some st' -> st' = interact nts st i.
Proof.
  unfold mounted_interact, interact.
  destruct i as [e|text|backend|question backend|backend];
    repeat match goal with
           | |- context [let '(_, _) := ?x in _] => destruct x as [[u|err] st0]
           end; simpl;
    try destruct (transcript_renders _); congruence.
Qed.

Lemma mounted_session_session (nts : Q -> string) (its : list interaction)
  (st st' : state) :
  mounted_session nts its st = Some st' -> st' = session nts its st.
Proof.
  revert st. induction its as [|i its IH]; intros st; simpl.
  - congruence.
  - destruct (mounted_interact nts st i) as [st1|] eqn:Hi; [|discriminate].
    apply mounted_interact_interact in Hi as ->. apply IH.
Qed.

Lemma send_keeps_quiet (text : string) (backend : completion JS.value)
  (st st' : state) (u : unit) :
  sendChatMessage text backend st = (Normal u, st') -> quiet st -> quiet st'.
Proof.
  rewrite sendChatMessage_result. intros Hs (Ha & Hl & Ht).
  destruct (negb (str_truthy (trim text)) || isLoadingChat st).
  - injection Hs as _ <-. repeat split; assumption.
  - destruct (chat_reply backend) as [reply|e] eqn:Hr; [|discriminate].
    injection Hs as _ <-. repeat split; [|exact Ht].
    simpl. apply answered_app; [exact Ha|]. simpl.
    now rewrite (chat_reply_is_ai backend reply Hr).
Qed.

Lemma mounted_inv (c : completion unit) (st0 st' : state) :
  match c with
  | Normal _ => if transcript_renders st0 then Some st0 else None
  | Throw _ => None
  end = Some st' ->
  exists u, c = Normal u /\ st0 = st' /\ transcript_renders st' = true.
Proof.
  destruct c as [u|e]; [|discriminate].
  destruct (transcript_renders st0) eqn:Hr; [|discriminate].
  intros [= <-]. eauto.
Qed.

Lemma mounted_interact_keeps_quiet (nts : Q -> string) (st st' : state) (i : interaction) :
  mounted_interact nts st i = Some st' ->
  quiet st -> quiet st' /\ transcript_renders st' = true.
Proof.
  unfold mounted_interact. intros Hi Hq.
  destruct i as [e|text|backend|question backend|backend].
  - apply (mounted_inv (Normal tt)) in Hi as (_ & _ & <- & Hr). split; [|exact Hr].
    destruct Hq as (Ha & Hl & Ht).
    destruct (handle_fields st e) as (Hc & Hl' & Ht' & _).
    unfold quiet. now rewrite Hc, Hl', Ht'.
  - apply (mounted_inv (Normal tt)) in Hi as (_ & _ & <- & Hr). split; [|exact Hr].
    exact Hq.
  - destruct (sendChatMessage (chatInput st) backend st) as [c st0] eqn:Hs.
    apply mounted_inv in Hi as (u & -> & -> & Hr). split; [|exact Hr].
    eapply send_keeps_quiet; [exact Hs|exact Hq].
  - destruct (handleQuestionClick question backend st) as [c st0] eqn:Hs.
    apply mounted_inv in Hi as (u & -> & -> & Hr). split; [|exact Hr].
    eapply send_keeps_quiet; [exact Hs|exact Hq].
  - rewrite quickTrainAI_result in Hi.
    apply (mounted_inv (Normal tt)) in Hi as (_ & _ & <- & Hr). split; [|exact Hr].
    destruct Hq as (Ha & Hl & Ht).
    repeat split; [|exact Hl].
    simpl. apply answered_app; [exact Ha|]. simpl.
    now rewrite (proj1 (train_reply_is_ai nts backend)).
Qed.

Lemma mounted_session_keeps_quiet (nts : Q -> string) (its : list interaction)
  (st st' : state) :
  mounted_session nts its st = Some st' ->
  quiet st -> transcript_renders st = true ->
  quiet st' /\ transcript_renders st' = true.
Proof.
  revert st. induction its as [|i its IH]; intros st; simpl.
  - intros [= <-]. auto.
  - destruct (mounted_interact nts st i) as [st1|] eqn:Hi; [|discriminate].
    intros Hs Hq _.
    destruct (mounted_interact_keeps_quiet nts st st1 i Hi Hq) as [Hq1 Hr1].
    now apply (IH st1).
Qed.

Lemma interact_keeps_trained (nts : Q -> string) (st : state) (i : interaction) :
  aiTrained st = true -> aiTrained (interact nts st i) = true.
Proof.
  intros H. destruct i as [e|text|backend|question backend|backend]; simpl.
  - now destruct (handle_fields st e) as (_ & _ & _ & -> & _).
  - exact H.
  - rewrite sendChatMessage_result.
    destruct (_ || _); [exact H|]. now destruct (chat_reply backend).
  - unfold handleQuestionClick. rewrite sendChatMessage_result.
    destruct (_ || _); [exact H|]. now destruct (chat_reply backend).
  - rewrite quickTrainAI_result. simpl. rewrite H. apply orb_true_r.
Qed.

Lemma session_keeps_trained (nts : Q -> string) (its : list interaction) (st : state) :
  aiTrained st = true -> aiTrained (session nts its st) = true.
Proof.
  revert st. induction its as [|i its IH]; intros st H; simpl; [exact H|].
  apply IH, interact_keeps_trained, H.
Qed.

Lemma interact_keeps_view (nts : Q -> string) (st : state) (i : interaction) :
  is_navigation i = false ->
  healthData (interact nts st i) = healthData st /\
  currentDayIndex (interact nts st i) = currentDayIndex st /\
  uiStyle (interact nts st i) = uiStyle st /\
  dataSource (interact nts st i) = dataSource st.
Proof.
  intros Hn. destruct i as [e|text|backend|question backend|backend]; simpl.
  - discriminate Hn.
  - auto.
  - rewrite sendChatMessage_result.
    destruct (_ || _); [auto|]. now destruct (chat_reply backend).
  - unfold handleQuestionClick. rewrite sendChatMessage_result.
    destruct (_ || _); [auto|]. now destruct (chat_reply backend).
  - rewrite quickTrainAI_result. simpl. auto.
Qed.

Lemma session_keeps_view (nts : Q -> string) (its : list interaction) (st : state) :
  Forall (fun i => is_navigation i = false) its ->
  healthData (session nts its st) = healthData st /\
  currentDayIndex (session nts its st) = currentDayIndex st /\
  uiStyle (session nts its st) = uiStyle st /\
  dataSource (session nts its st) = dataSource st.
Proof.
  intros Hall. revert st. induction Hall as [|i its Hi _ IH]; intros st; simpl; [auto|].
  destruct (IH (interact nts st i)) as (-> & -> & -> & ->).
  apply interact_keeps_view, Hi.
Qed.

(** The parts of the render embedded here read four cells only. *)
Lemma view_of_four_cells (st1 st2 : state) :
  healthData st1 = healthData st2 ->
  currentDayIndex st1 = currentDayIndex st2 ->
  uiStyle st1 = uiStyle st2 ->
  render st1 = render st2 /\ dayLabel st1 = dayLabel st2 /\
  previousDay_disabled st1 = previousDay_disabled st2 /\
  nextDay_disabled st1 = nextDay_disabled st2.
Proof.
  intros Hd Hi Hs.
  unfold render, dayLabel, previousDay_disabled, nextDay_disabled,
    renderMetricsCards, renderCharts, two_charts, metrics_of.
  rewrite Hd, Hi, Hs. auto.
Qed.


(** X4. As long as the page stays mounted, that is, no render has thrown,
    after any sequence of completed interactions from the initial state
    (data loads, navigation clicks, style changes, typing, questions asked
    by the button or by a sample question, quick trainings): no loading or
    training indicator is left on, every user message of the transcript is
    directly followed by an AI message, and every message of the
    transcript renders. *)
Theorem dashboard_session_stays_quiet (nts : Q -> string) (its : list interaction)
  (st : state) :
  mounted_session nts its initial = Some st ->
  isLoadingChat st = false /\
  isTrainingAI st = false /\
  answered (chatMessages st) = true /\
  transcript_renders st = true.
Proof.
  intros Hs.
  destruct (mounted_session_keeps_quiet nts its initial st Hs) as ((Ha & Hl & Ht) & Hr).
  - repeat split.
  - reflexivity.
  - auto.
Qed.

(** X4 (witness). A question that fails on the network and a training the
    backend refuses: the page stays mounted and quiet. *)
Lemma dashboard_session_witness :
  mounted_session show_integer typed_then_asked initial =
    Some (session show_integer typed_then_asked initial) /\
  answered (chatMessages (session show_integer typed_then_asked initial)) = true.
Proof.
  assert (mounted_session show_integer typed_then_asked initial =
            Some (session show_integer typed_then_asked initial)) as H
    by (vm_compute; reflexivity).
  split; [exact H|].
  exact (proj1 (proj2 (proj2 (dashboard_session_stays_quiet show_integer typed_then_asked
                                (session show_integer typed_then_asked initial) H)))).
Defined.

(** X5. Once a quick training has succeeded, the "Quick Train AI" button is
    gone for good: it is not rendered after any further interactions, data
    reloads and failed trainings included. *)
Theorem quick_train_button_gone_after_success (nts : Q -> string)
  (backend : completion JS.value) (st : state) (its : list interaction) :
  quick_train_succeeded backend = true ->
  quickTrainButton (session nts its (snd (quickTrainAI nts backend st))) = None.
Proof.
  intros Hok.
  assert (aiTrained (session nts its (snd (quickTrainAI nts backend st))) = true) as Ht.
  { apply session_keeps_trained. rewrite quickTrainAI_result. simpl. now rewrite Hok. }
  unfold quickTrainButton. rewrite Ht.
  destruct (healthData _); reflexivity.
Qed.

(** X5 (witness). Training succeeds on loaded data; a later training that
    fails does not bring the button back. *)
Lemma quick_train_button_witness :
  quick_train_succeeded (Normal (Obj trained_response)) = true /\
  quickTrainButton
    (session show_integer typed_then_asked
       (snd (quickTrainAI show_integer (Normal (Obj trained_response))
               three_nights_loaded))) = None.
Proof.
  split; [reflexivity|].
  apply (quick_train_button_gone_after_success show_integer
           (Normal (Obj trained_response)) three_nights_loaded typed_then_asked).
  reflexivity.
Defined.

(** X6. Typing, asking and training never move the data view of a page
    that stays mounted: after any sequence of interactions without a data
    load, a navigation click or a style change, none of which made a
    render throw, the rendered data section, the day label and the two
    navigation buttons are what they were. *)
Theorem chat_and_training_keep_the_view (nts : Q -> string) (its : list interaction)
  (st st' : state) :
  Forall (fun i => is_navigation i = false) its ->
  mounted_session nts its st = Some st' ->
  render st' = render st /\
  dayLabel st' = dayLabel st /\
  previousDay_disabled st' = previousDay_disabled st /\
  nextDay_disabled st' = nextDay_disabled st.
Proof.
  intros Hall Hs. apply mounted_session_session in Hs as ->.
  destruct (session_keeps_view nts its st Hall) as (Hd & Hi & Hs & _).
  apply view_of_four_cells; assumption.
Qed.

(** X6 (witness). A question that fails and a training that fails, on
    three loaded nights. *)
Lemma chat_and_training_witness :
  Forall (fun i => is_navigation i = false) typed_then_asked /\
  mounted_session show_integer typed_then_asked three_nights_loaded =
    Some (session show_integer typed_then_asked three_nights_loaded) /\
  render (session show_integer typed_then_asked three_nights_loaded) =
    render three_nights_loaded.
Proof.
  assert (Forall (fun i => is_navigation i = false) typed_then_asked) as H
    by (repeat constructor).
  assert (mounted_session show_integer typed_then_asked three_nights_loaded =
            Some (session show_integer typed_then_asked three_nights_loaded)) as Hm
    by (vm_compute; reflexivity).
  split; [exact H|]. split; [exact Hm|].
  exact (proj1 (chat_and_training_keep_the_view show_integer typed_then_asked
                  three_nights_loaded
                  (session show_integer typed_then_asked three_nights_loaded) H Hm)).
Defined.

End DashboardSession.

(* --------------------------------------------------------------------- *)
(** ** The navigation buttons and the day shown                           *)
(* --------------------------------------------------------------------- *)

Section NavigationButtons.
Import Dashboard.

Lemma setCurrentDayIndex_same (st : state) : setCurrentDayIndex (currentDayIndex st) st = st.
Proof. destruct st; reflexivity. Qed.

Lemma navigation_in_range (st : state) :
  index_in_range st ->
  (if previousDay_disabled st then previousDay st = st
   else currentDayIndex (previousDay st) = currentDayIndex st + 1 /\
        nextDay (previousDay st) = st) /\
  (if nextDay_disabled st then nextDay st = st
   else currentDayIndex (nextDay st) = currentDayIndex st - 1 /\
        previousDay (nextDay st) = st).
Proof.
  unfold index_in_range. intros Hr.
  pose proof (sleep_length_or_1_pos st) as Hpos.
  split.
  - unfold previousDay_disabled, previousDay, nextDay.
    unfold sleep_length_or_1 in *.
    destruct (series "sleep" (healthData st)) as [sleep|] eqn:Hs.
    + destruct (Z.leb_spec (Z.of_nat (length sleep) - 1) (currentDayIndex st)) as [Hle|Hlt].
      * replace (Z.min _ _) with (currentDayIndex st).
        { apply setCurrentDayIndex_same. }
        destruct (Nat.eqb_spec (length sleep) 0); lia.
      * assert ((length sleep =? 0)%nat = false) as Hne by (apply Nat.eqb_neq; lia).
        rewrite Hne in *. simpl.
        replace (Z.min _ _) with (currentDayIndex st + 1) by lia.
        split; [reflexivity|].
        replace (Z.max _ _) with (currentDayIndex st) by lia.
        destruct st; reflexivity.
    + replace (Z.min _ _) with (currentDayIndex st) by lia.
      apply setCurrentDayIndex_same.
  - unfold nextDay_disabled, previousDay, nextDay.
    destruct (Z.eqb_spec (currentDayIndex st) 0) as [H0|Hn0].
    + replace (Z.max _ _) with (currentDayIndex st) by lia.
      apply setCurrentDayIndex_same.
    + simpl. replace (Z.max _ _) with (currentDayIndex st - 1) by lia.
      split; [reflexivity|].
      change (sleep_length_or_1 (setCurrentDayIndex (currentDayIndex st - 1) st))
        with (sleep_length_or_1 st).
      replace (Z.min _ _) with (currentDayIndex st) by lia.
      destruct st; reflexivity.
Qed.

Lemma interact_keeps_index_in_range (nts : Q -> string) (st : state) (i : interaction) :
  index_in_range st -> index_in_range (interact nts st i).
Proof.
  intros H. destruct (is_navigation i) eqn:Hn.
  - destruct i; try discriminate Hn. simpl. apply handle_keeps_index_in_range, H.
  - destruct (interact_keeps_view nts st i Hn) as (Hd & Hi & _).
    unfold index_in_range, sleep_length_or_1 in *. rewrite Hd, Hi. exact H.
Qed.

Lemma session_keeps_index_in_range (nts : Q -> string) (its : list interaction)
  (st : state) :
  index_in_range st -> index_in_range (session nts its st).
Proof.
  revert st. induction its as [|i its IH]; intros st H; simpl; [exact H|].
  apply IH, interact_keeps_index_in_range, H.
Qed.

Lemma initial_index_in_range : index_in_range initial.
Proof. unfold index_in_range. cbn. lia. Qed.

Lemma entry_in_range (sleep : list point) (i : Z) :
  0 <= i <= Z.of_nat (length sleep) - 1 ->
  exists p, entry (Some sleep) i = Some p /\ p ∈ sleep.
Proof.
  intros Hi. unfold entry.
  destruct (Z.ltb_spec i 0) as [|_]; [lia|].
  destruct (sleep !! Z.to_nat i) as [p|] eqn:Hp.
  - exists p. split; [reflexivity|]. eapply list_elem_of_lookup_2, Hp.
  - apply lookup_ge_None in Hp. lia.
Qed.

(** X7. In every state reachable from the initial one, each navigation
    button agrees with its handler: a disabled button's handler would leave
    the state as it is, and an enabled button moves the day index by
    exactly one ("Previous day" up, "Next day" down), after which the
    opposite button brings the state back. *)
Theorem navigation_buttons_agree_with_handlers (nts : Q -> string)
  (its : list interaction) :
  let st := session nts its initial in
  (if previousDay_disabled st then previousDay st = st
   else currentDayIndex (previousDay st) = currentDayIndex st + 1 /\
        nextDay (previousDay st) = st) /\
  (if nextDay_disabled st then nextDay st = st
   else currentDayIndex (nextDay st) = currentDayIndex st - 1 /\
        previousDay (nextDay st) = st).
Proof.
  apply navigation_in_range, session_keeps_index_in_range, initial_index_in_range.
Qed.

(** X8. Whenever a reachable state shows the data view, the day index
    selects an entry of the sleep series: the "Sleep" card shows that
    entry's value and the day label that entry's date ('Today' only for an
    empty date string); the [|| 0] and 'Today' fallbacks for a missing
    entry are never taken. *)
Theorem shown_day_is_a_sleep_entry (nts : Q -> string) (its : list interaction)
  (cards : cards_view) (charts : charts_view) :
  let st := session nts its initial in
  render st = Rendered (DataView cards charts) ->
  exists sleep p,
    series "sleep" (healthData st) = Some sleep /\
    p ∈ sleep /\
    entry (Some sleep) (currentDayIndex st) = Some p /\
    sleep_card_value st = Some (value p) /\
    dayLabel st = if str_truthy (date p) then DateLabel (date p) else Today.
Proof.
  intros st Hr.
  assert (index_in_range st) as Hi
    by apply session_keeps_index_in_range, initial_index_in_range.
  assert (exists sleep, series "sleep" (healthData st) = Some sleep /\ sleep <> [])
    as (sleep & Hs & Hne).
  { unfold render in Hr.
    destruct (healthData st) as [hd|]; [|discriminate].
    destruct (hasData hd) eqn:Hd; [|discriminate].
    unfold hasData, series in *.
    destruct (metrics hd) as [m|]; [|discriminate].
    destruct (m !! "sleep") as [sleep|]; [|now rewrite andb_false_r in Hd].
    exists sleep. split; [reflexivity|]. intros ->. now rewrite andb_false_r in Hd. }
  unfold index_in_range in Hi. rewrite (sleep_length_or_1_nonempty st sleep Hs Hne) in Hi.
  destruct (entry_in_range sleep (currentDayIndex st) Hi) as (p & Hp & Hin).
  exists sleep, p.
  split; [exact Hs|]. split; [exact Hin|]. split; [exact Hp|].
  unfold sleep_card_value, dayLabel, metrics_of, value_or_0.
  cbn [head fmap option_fmap option_map metric_value].
  rewrite Hs, Hp. split; reflexivity.
Qed.

(** X8 (witness). Three nights loaded and one click back: the second
    entry is shown. *)
Lemma shown_day_witness :
  render (session show_integer loaded_then_back initial) =
    Rendered (DataView (renderMetricsCards (session show_integer loaded_then_back initial))
                       (renderCharts (session show_integer loaded_then_back initial))) /\
  exists sleep p,
    series "sleep" (healthData (session show_integer loaded_then_back initial)) = Some sleep /\
    p ∈ sleep /\
    entry (Some sleep) (currentDayIndex (session show_integer loaded_then_back initial)) =
      Some p /\
    sleep_card_value (session show_integer loaded_then_back initial) = Some (value p) /\
    dayLabel (session show_integer loaded_then_back initial) =
      if str_truthy (date p) then DateLabel (date p) else Today.
Proof.
  split; [vm_compute; reflexivity|].
  apply (shown_day_is_a_sleep_entry show_integer loaded_then_back
           (renderMetricsCards (session show_integer loaded_then_back initial))
           (renderCharts (session show_integer loaded_then_back initial))).
  vm_compute. reflexivity.
Defined.

End NavigationButtons.

(* --------------------------------------------------------------------- *)
(** ** What every layout shows                                            *)
(* --------------------------------------------------------------------- *)

Section Layouts.
Import Dashboard.
Local Open Scope Q_scope.

(** X9. Every layout, an unknown style name included, shows the same four
    metric cards, each exactly once and in the order Sleep, Steps, Heart
    Rate, Calories; the "split" layout only distributes them over two
    panels. *)
Theorem every_layout_shows_the_four_cards (st : state) :
  concat (card_groups (renderMetricsCards st)) = metrics_of st /\
  map metric_title (metrics_of st) = ["Sleep"; "Steps"; "Heart Rate"; "Calories"]%string.
Proof.
  split; [|reflexivity].
  unfold renderMetricsCards. repeat case_bool_decide; reflexivity.
Qed.

(** X10. Every layout except "minimal" shows exactly two charts, the sleep
    series and then the steps series, whether embedded among the cards
    ("sidebar", where [renderCharts] returns null) or below them; the
    "minimal" layout shows no chart but the two averages. *)
Theorem every_layout_shows_both_charts_once (st : state) :
  if bool_decide (uiStyle st = "minimal"%string)
  then all_charts st = [] /\
       renderCharts st = RecentTrends (avg_sleep (healthData st)) (avg_steps (healthData st))
  else map data (all_charts st) =
         [series "sleep" (healthData st); series "steps" (healthData st)] /\
       (renderCharts st = NoCharts <-> uiStyle st = "sidebar"%string).
Proof.
  unfold all_charts, renderMetricsCards, renderCharts.
  destruct (decide (uiStyle st = "minimal"%string)) as [Hm|Hm].
  - rewrite Hm. split; reflexivity.
  - rewrite (bool_decide_eq_false_2 _ Hm).
    repeat case_bool_decide; try (exfalso; congruence); simpl;
      (split; [reflexivity|]); split; congruence.
Qed.




End Layouts.

(* --------------------------------------------------------------------- *)
(** ** The confidence line of a chat bubble                               *)
(* --------------------------------------------------------------------- *)

Section ConfidenceLine.
Import Dashboard.




End ConfidenceLine.

(* --------------------------------------------------------------------- *)
(** ** The AI trainer page                                                *)
(* --------------------------------------------------------------------- *)

Section TrainerPage.
Import AITrainer.

Lemma or_truthy (a b : JS.value) : truthy b = true -> truthy (JS.or a b) = true.
Proof. intros Hb. unfold JS.or. destruct (truthy a) eqn:Ha; assumption. Qed.

Lemma startTraining_settles (backend : completion JS.value) (now : string) (st : state) :
  let '(c, st') := startTraining backend now st in
  c = Normal tt /\
  isTraining st' = false /\
  chatMessages st' = chatMessages st /\
  currentQuestion st' = currentQuestion st /\
  isAsking st' = isAsking st /\
  exists t, trainingStatus st' = Some t /\
    if training_succeeded backend
    then status t = "completed"%string /\ progress t = 100 /\ error t = Undefined /\
         exists m, modelInfo st' = Some m /\ trained_at m = now
    else status t = "failed"%string /\ progress t = 0 /\ modelInfo st' = modelInfo st.
Proof.
  unfold startTraining, training_succeeded.
  destruct backend as [result|e]; [destruct result|];
    cbv [mbind action_bind bind lift try_catch finally modify get
           setIsTraining setTrainingStatus setModelInfo]; cbn;
    try (repeat split; eexists; split; [reflexivity|]; repeat split; reflexivity).
  all: match goal with |- context [strict_eq_str ?v ?l] => destruct (strict_eq_str v l) end;
    cbn; repeat split; eexists; (split; [reflexivity|]); repeat split; eauto.
Qed.

Lemma paired_app (l1 l2 : list ChatMessage) :
  paired l1 = true -> paired l2 = true -> paired (l1 ++ l2) = true.
Proof.
  revert l1. fix IH 1. intros [|q [|a rest]] H1 H2; simpl in *; try discriminate; [assumption|].
  destruct (type q), (type a); try discriminate. apply IH; assumption.
Qed.

Lemma trim_nonempty (s : string) : str_truthy (trim s) = true -> s <> EmptyString.
Proof. intros H ->. discriminate H. Qed.

(** The state a question leaves, in closed form. *)
Lemma askQuestion_result (backend : completion JS.value) (asked_at answered_at : string)
  (st : state) :
  askQuestion backend asked_at answered_at st =
  (Normal tt,
   if negb (str_truthy (trim (currentQuestion st))) || negb (bool_decide (is_Some (modelInfo st)))
   then st
   else {| trainingStatus := trainingStatus st; modelInfo := modelInfo st;
           isTraining := isTraining st;
           chatMessages := chatMessages st
             ++ [ {| type := user; message := Str (currentQuestion st);
                     timestamp := asked_at |};
                  ask_reply backend answered_at ];
           currentQuestion := EmptyString; isAsking := false |}).
Proof.
  unfold askQuestion.
  destruct (negb (str_truthy (trim (currentQuestion st))) || _); [reflexivity|].
  destruct backend as [data|e]; [destruct data|];
    cbv [mbind action_bind bind lift try_catch finally modify get ask_reply
           setIsAsking setChatMessages setCurrentQuestion push]; cbn;
    rewrite <- app_assoc; reflexivity.
Qed.

Lemma ask_reply_ok (backend : completion JS.value) (answered_at : string) :
  type (ask_reply backend answered_at) = ai /\
  timestamp (ask_reply backend answered_at) = answered_at /\
  truthy (message (ask_reply backend answered_at)) = true.
Proof.
  unfold ask_reply. destruct backend as [data|e]; [destruct data|]; simpl;
    repeat split; try reflexivity; apply or_truthy; reflexivity.
Qed.

Lemma interact_keeps_model (st : state) (i : interaction) :
  is_Some (modelInfo st) -> is_Some (modelInfo (interact st i)).
Proof.
  intros Hm. destruct i as [q|backend now|backend t1 t2]; simpl.
  - exact Hm.
  - pose proof (startTraining_settles backend now st) as H.
    destruct (startTraining backend now st) as [c st']. simpl.
    destruct H as (_ & _ & _ & _ & _ & t & _ & H).
    destruct (training_succeeded backend).
    + destruct H as (_ & _ & _ & m & -> & _). eauto.
    + destruct H as (_ & _ & ->). exact Hm.
  - rewrite askQuestion_result. simpl.
    destruct (negb (str_truthy (trim (currentQuestion st))) || _); exact Hm.
Qed.


Lemma interact_keeps_settled (st : state) (i : interaction) :
  settled st -> settled (interact st i).
Proof.
  intros (Ht & Ha & Hp & Hall & Hm).
  destruct i as [q|backend now|backend t1 t2]; simpl.
  - repeat split; assumption.
  - pose proof (startTraining_settles backend now st) as H.
    pose proof (interact_keeps_model st (TrainPressed backend now)) as Hk. simpl in Hk.
    destruct (startTraining backend now st) as [c st']. simpl in *.
    destruct H as (_ & Ht' & Hc & _ & Ha' & _).
    unfold settled. rewrite Ht', Ha', Hc, Ha.
    repeat split; try assumption. intros Hne. apply Hk, Hm, Hne.
  - rewrite askQuestion_result. simpl.
    destruct (negb (str_truthy (trim (currentQuestion st)))) eqn:Hq; simpl.
    { repeat split; assumption. }
    destruct (bool_decide (is_Some (modelInfo st))) eqn:Hmi; simpl.
    2:{ repeat split; assumption. }
    apply bool_decide_eq_true in Hmi.
    destruct (ask_reply_ok backend t2) as (Hty & _ & Htr).
    repeat split; simpl; try assumption.
    + apply paired_app; [assumption|]. simpl. rewrite Hty. reflexivity.
    + apply Forall_app. split; [assumption|].
      repeat constructor.
      * unfold stored. simpl. exists (currentQuestion st). split; [reflexivity|].
        apply negb_false_iff in Hq. apply trim_nonempty in Hq. exact Hq.
      * unfold stored. rewrite Hty. exact Htr.
    + intros _. exact Hmi.
Qed.

Lemma session_keeps_settled (its : list interaction) (st : state) :
  settled st -> settled (session its st).
Proof.
  revert st. induction its as [|i its IH]; intros st H; [exact H|].
  apply IH, interact_keeps_settled, H.
Qed.

Lemma trainer_mounted_interact (st st' : state) (i : interaction) :
  mounted_interact st i = Some st' -> st' = interact st i /\ renders st' = true.
Proof.
  unfold mounted_interact, interact.
  destruct i as [q|backend now|backend t1 t2].
  - destruct (renders (setCurrentQuestion q st)) eqn:Hr; [|discriminate].
    intros [= <-]. auto.
  - destruct (startTraining backend now st) as [[u|e] st0]; [|discriminate]. simpl.
    destruct (renders st0) eqn:Hr; [|discriminate]. intros [= <-]. auto.
  - destruct (askQuestion backend t1 t2 st) as [[u|e] st0]; [|discriminate]. simpl.
    destruct (renders st0) eqn:Hr; [|discriminate]. intros [= <-]. auto.
Qed.

Lemma trainer_mounted_session (its : list interaction) (st st' : state) :
  mounted_session its st = Some st' -> st' = session its st.
Proof.
  revert st. induction its as [|i its IH]; intros st; simpl.
  - congruence.
  - destruct (mounted_interact st i) as [st1|] eqn:Hi; [|discriminate].
    apply trainer_mounted_interact in Hi as [-> _]. apply IH.
Qed.

Lemma trainer_mounted_renders (its : list interaction) (st st' : state) :
  mounted_session its st = Some st' -> renders st = true -> renders st' = true.
Proof.
  revert st. induction its as [|i its IH]; intros st; simpl.
  - intros [= <-]. auto.
  - destruct (mounted_interact st i) as [st1|] eqn:Hi; [|discriminate].
    apply trainer_mounted_interact in Hi as [_ Hr]. intros Hs _. eapply IH; eauto.
Qed.

Lemma initial_settled : settled initial.
Proof. repeat split; try reflexivity; [constructor|]. intros H. now contradiction H. Qed.


(** X14. As long as the trainer page stays mounted, that is, no render
    has thrown, after any sequence of completed interactions from its
    initial state (typing, trainings, questions), whatever the backend
    answered: no training or asking flag is left on, the transcript
    consists of question and answer pairs, every question in it is a string
    that is not empty, every answer in it is a truthy value (the backend's
    [response] when that is truthy, a fixed text otherwise), the transcript
    is empty unless a model is loaded, and the page renders. *)
Theorem trainer_session_stays_settled (its : list interaction) (st : state) :
  mounted_session its initial = Some st ->
  isTraining st = false /\ isAsking st = false /\
  paired (chatMessages st) = true /\
  Forall (fun m =>
            match type m with
            | user => exists q, message m = Str q /\ q <> EmptyString
            | ai => truthy (message m) = true
            end) (chatMessages st) /\
  (chatMessages st <> [] -> is_Some (modelInfo st)) /\
  renders st = true.
Proof.
  intros Hs.
  pose proof (trainer_mounted_renders its initial st Hs eq_refl) as Hr.
  apply trainer_mounted_session in Hs as ->.
  destruct (session_keeps_settled its initial initial_settled) as (H1 & H2 & H3 & H4 & H5).
  repeat split; assumption.
Qed.

(** X14 (witness). A training that succeeds and a question that fails on
    the network: the page stays mounted and the question is paired with
    the apology. *)
Lemma trainer_session_witness :
  mounted_session trained_then_asked initial = Some (session trained_then_asked initial) /\
  paired (chatMessages (session trained_then_asked initial)) = true.
Proof.
  assert (mounted_session trained_then_asked initial =
            Some (session trained_then_asked initial)) as H
    by (vm_compute; reflexivity).
  split; [exact H|].
  exact (proj1 (proj2 (proj2 (trainer_session_stays_settled trained_then_asked
                                (session trained_then_asked initial) H)))).
Defined.



End TrainerPage.

(* --------------------------------------------------------------------- *)
(** ** The upload page                                                    *)
(* --------------------------------------------------------------------- *)

Section UploadPage.
Import Upload.

Lemma endsWith_app (pre suffix : string) : endsWith (String.app pre suffix) suffix = true.
Proof.
  induction pre as [|c pre IH]; simpl.
  - destruct suffix; cbn [endsWith String.app]; apply orb_true_intro; left;
      apply bool_decide_eq_true_2; reflexivity.
  - cbn [endsWith String.app]. rewrite IH. apply orb_true_r.
Qed.

(** [s.endsWith(suffix)] holds exactly when [s] is some prefix followed by
    [suffix]. *)
Lemma endsWith_iff (s suffix : string) :
  endsWith s suffix = true <-> exists pre, s = String.app pre suffix.
Proof.
  split.
  - induction s as [|c s IH]; cbn [endsWith].
    + rewrite orb_false_r. intros H%bool_decide_eq_true. exists EmptyString. exact H.
    + intros [H%bool_decide_eq_true|H]%orb_true_iff.
      * exists EmptyString. exact H.
      * destruct (IH H) as [pre ->]. exists (String c pre). reflexivity.
  - intros [pre ->]. apply endsWith_app.
Qed.

(** X16. A file whose name is not of the form [<prefix>.xml] is never
    uploaded: the handler only sets the "Please select an XML file" error
    and returns. The upload flag is not raised and a result shown from an
    earlier upload stays on the page beside the error. *)
Theorem upload_rejects_other_names (f : file) (backend : completion response)
  (st : state) :
  (forall pre, name f <> String.app pre ".xml") ->
  let '(c, st') := handleFileUpload (Some f) backend st in
  c = Normal tt /\
  error st' = Str "Please select an XML file from Apple Health export" /\
  error_shown st' = true /\
  uploadResult st' = uploadResult st /\
  uploading st' = uploading st.
Proof.
  intros H. unfold handleFileUpload.
  destruct (endsWith (name f) ".xml") eqn:He.
  - apply endsWith_iff in He as [pre Hpre]. now apply H in Hpre.
  - simpl. repeat split.
Qed.

(** X16 (witness). A zip archive is turned away. *)
Lemma upload_rejects_witness :
  (forall pre, name zip_export <> String.app pre ".xml") /\
  error_shown (snd (handleFileUpload (Some zip_export) (Throw NetworkError) initial)) = true.
Proof.
  assert (forall pre, name zip_export <> String.app pre ".xml") as H.
  { intros pre Hpre.
    assert (endsWith (name zip_export) ".xml" = true) as He
      by (apply endsWith_iff; exists pre; exact Hpre).
    discriminate He. }
  split; [exact H|].
  pose proof (upload_rejects_other_names zip_export (Throw NetworkError) initial H) as Hw.
  destruct (handleFileUpload (Some zip_export) (Throw NetworkError) initial) as [c st'].
  exact (proj1 (proj2 (proj2 Hw))).
Defined.



End UploadPage.

(* --------------------------------------------------------------------- *)
(** ** The insights page                                                  *)
(* --------------------------------------------------------------------- *)

Section InsightColumns.
Import InsightsPage.
Local Open Scope Q_scope.

(** X18. The two columns of the "split" insights layout partition the
    insights: every insight appears in exactly one of them, as often as in
    the list, the left column holding those with a confidence above 0.7 and
    the right column those with a confidence of at most 0.7. *)
Theorem split_columns_partition_insights (insights : list Insight) :
  high_confidence insights ++ moderate_confidence insights ≡ₚ insights /\
  (forall i, i ∈ high_confidence insights <-> i ∈ insights /\ 7 # 10 < confidence i) /\
  (forall i, i ∈ moderate_confidence insights <-> i ∈ insights /\ confidence i <= 7 # 10).
Proof.
  unfold high_confidence, moderate_confidence. split; [|split].
  - induction insights as [|i l IH]; [reflexivity|]. simpl.
    destruct (Qle_bool (confidence i) (7 # 10)); simpl.
    + etransitivity; [symmetry; apply Permutation_middle|]. constructor. exact IH.
    + constructor. exact IH.
  - intros i. rewrite !list_elem_of_In, filter_In, negb_true_iff.
    rewrite <- not_true_iff_false, Qle_bool_iff.
    split; intros [Hin Hc]; (split; [exact Hin|]).
    + apply Qnot_le_lt, Hc.
    + apply Qlt_not_le, Hc.
  - intros i. rewrite !list_elem_of_In, filter_In, Qle_bool_iff. reflexivity.
Qed.

End InsightColumns.

(* --------------------------------------------------------------------- *)
(** ** The reading the prioritization selects                             *)
(* --------------------------------------------------------------------- *)

Section SelectedReading.
Import Unifier.

Lemma py_or_cases (a b : pyval) :
  match py_or a b with
  | Some v => a = Some v \/ b = Some v
  | None => b = None /\ forall v, a = Some v -> Qnum v = 0
  end.
Proof.
  unfold py_or, truthy. destruct a as [x|]; simpl.
  - destruct (Z.eqb_spec (Qnum x) 0) as [Hz|Hz]; simpl.
    + destruct b as [y|]; [now right|]. split; [reflexivity|]. now intros v [= <-].
    + now left.
  - destruct b as [y|]; [now right|]. split; [reflexivity|]. discriminate.
Qed.

(** X19. The prioritization invents no value and has a branch for three
    metric types only: it assigns a value or [None] exactly for sleep,
    steps and heart_rate, and nothing at all for any other type; a
    selected value is the reading one of the two sources holds for that
    date; and [None] is selected only if every reading the sources hold
    for that date is 0. *)
Theorem prioritize_selects_a_source_reading (k : string)
  (oura_data apple_data : gmap Z Q) (d : Z) :
  match prioritize k oura_data apple_data d with
  | Some (Some v) =>
      k ∈ ["sleep"; "steps"; "heart_rate"]%string /\
      (oura_data !! d = Some v \/ apple_data !! d = Some v)
  | Some None =>
      k ∈ ["sleep"; "steps"; "heart_rate"]%string /\
      forall v, oura_data !! d = Some v \/ apple_data !! d = Some v -> Qnum v = 0
  | None => k ∉ ["sleep"; "steps"; "heart_rate"]%string
  end.
Proof.
  unfold prioritize.
  repeat case_bool_decide.
  4:{ intros Hin. repeat (apply elem_of_cons in Hin as [Hin|Hin]; [contradiction|]).
      now apply elem_of_nil in Hin. }
  all: match goal with |- context [py_or ?a ?b] =>
         pose proof (py_or_cases a b) as Hc; destruct (py_or a b) as [v|] end.
  all: (split; [subst k; repeat first [left; reflexivity | right]|]).
  all: try tauto.
  all: destruct Hc as [Hb Ha]; intros v [Hv|Hv]; first [now apply Ha | congruence].
Qed.

End SelectedReading.
